(** * element_session.export.nwb : session_to_nwb

    A shallow embedding of [src/element_session/export/nwb.py] and the
    properties of [session_to_nwb] that its specification states.

    The function is glue over three collaborators: the relational store
    (DataJoint), Python's [datetime] and [uuid] modules, and pynwb's
    [NWBFile] / [Subject] constructors.  Each collaborator is modelled at
    the interface the function actually uses; the function itself is
    translated statement by statement in an error monad that also counts
    the draws from the system's random source.  Names that the function
    uses but that the module never binds are looked up in a model of the
    module's global namespace, where they raise [NameError] as shipped. *)

From Stdlib Require Import ZArith List String Ascii Bool Lia DecimalString.
Import ListNotations.
Local Open Scope string_scope.
Local Open Scope Z_scope.

(** ** Python exceptions and the error monad *)

(** The exception classes that the function or its collaborators raise. *)
Inductive exn : Type :=
| DataJointError (msg : string)
| ValueError (msg : string)
| TypeError (msg : string)
| KeyError (msg : string)
| AttributeError (msg : string)
| OverflowError (msg : string)
| NameError (msg : string)
| ProviderError (msg : string).

Inductive result (A : Type) : Type :=
| Ok (a : A)
| Raise (e : exn).
Arguments Ok {A} a.
Arguments Raise {A} e.

Definition bind {A B : Type} (m : result A) (k : A -> result B) : result B :=
  match m with
  | Ok a => k a
  | Raise e => Raise e
  end.

Notation "x <- m ;; k" := (bind m (fun x => k))
  (at level 61, m at next level, right associativity).
Notation "m ;;; k" := (bind m (fun _ => k))
  (at level 61, right associativity).

(** Looking up a global name of the module. *)
Definition global (name : string) (bound : bool) : result unit :=
  if bound then Ok tt
  else Raise (NameError ("name '" ++ name ++ "' is not defined")).

(** [try: m except DataJointError: raise DataJointError(msg)].  The class
    named by the clause is looked up when an exception reaches it, so with
    the name unbound every exception of the body ends in [NameError]. *)
Definition except_DataJointError {A : Type} (bound : bool) (m : result A) (msg : string)
  : result A :=
  match m with
  | Ok a => Ok a
  | Raise e =>
      if bound
      then match e with
           | DataJointError _ => Raise (DataJointError msg)
           | other => Raise other
           end
      else Raise (NameError "name 'DataJointError' is not defined")
  end.

(** ** Text helpers *)

Definition digit_char (d : Z) : ascii :=
  ascii_of_nat (48 + Z.to_nat d).

(** The [n] low decimal digits of [z], most significant first
    (Python's ["%0nd" % z] for [0 <= z < 10^n]). *)
Fixpoint zero_padded (n : nat) (z : Z) : string :=
  match n with
  | O => EmptyString
  | S n' => zero_padded n' (z / 10) ++ String (digit_char (z mod 10)) EmptyString
  end.

Definition hex_char (d : Z) : ascii :=
  if d <? 10 then ascii_of_nat (48 + Z.to_nat d)
  else ascii_of_nat (87 + Z.to_nat d).

(** The [n] low hexadecimal digits of [z] (Python's ["%0nx" % z]). *)
Fixpoint hex_padded (n : nat) (z : Z) : string :=
  match n with
  | O => EmptyString
  | S n' => hex_padded n' (Z.shiftr z 4) ++ String (hex_char (Z.land z 15)) EmptyString
  end.

Fixpoint take (n : nat) (s : string) : string :=
  match n, s with
  | S n', String c s' => String c (take n' s')
  | _, _ => EmptyString
  end.

Fixpoint drop (n : nat) (s : string) : string :=
  match n, s with
  | S n', String _ s' => drop n' s'
  | _, _ => s
  end.

(** [str(n)] for a natural number *)
Definition nat_str (n : nat) : string := NilZero.string_of_uint (Nat.to_uint n).

(** [str(z)] for an integer *)
Definition Z_str (z : Z) : string := NilZero.string_of_int (Z.to_int z).

Definition DOUBLE_QUOTE : ascii := ascii_of_nat 34.

Fixpoint has_char (c : ascii) (s : string) : bool :=
  match s with
  | EmptyString => false
  | String c' s' => Ascii.eqb c c' || has_char c s'
  end.

(** Printable code points below 256. *)
Definition is_printable (c : ascii) : bool :=
  let n := nat_of_ascii c in
  ((32 <=? n) && (n <? 127) || (161 <=? n) && negb (n =? 173))%nat.

Definition repr_char (quote c : ascii) : string :=
  let n := nat_of_ascii c in
  if Ascii.eqb c quote || Ascii.eqb c "\" then String "\" (String c EmptyString)
  else if (n =? 9)%nat then "\t"
  else if (n =? 10)%nat then "\n"
  else if (n =? 13)%nat then "\r"
  else if is_printable c then String c EmptyString
  else String "\" (String "x" (hex_padded 2 (Z.of_nat n))).

Fixpoint repr_body (quote : ascii) (s : string) : string :=
  match s with
  | EmptyString => EmptyString
  | String c s' => repr_char quote c ++ repr_body quote s'
  end.

(** [repr(s)] for a [str]: single quotes, unless the text has one and no
    double quote; backslash escapes for the quote, the backslash and what
    does not print. *)
Definition py_repr (s : string) : string :=
  let quote := if has_char "'" s && negb (has_char DOUBLE_QUOTE s)
               then DOUBLE_QUOTE else "'"%char in
  String quote (repr_body quote s ++ String quote EmptyString).

(** [sep.join(parts)] *)
Fixpoint str_join (sep : string) (parts : list string) : string :=
  match parts with
  | [] => EmptyString
  | [p] => p
  | p :: rest => p ++ sep ++ str_join sep rest
  end.

(** ** The [datetime] module *)

(** A [timedelta] is an exact count of microseconds. *)
Definition timedelta := Z.

Definition US_PER_SECOND : Z := 1000000.
Definition US_PER_DAY : Z := 86400 * US_PER_SECOND.
Definition MAX_DELTA_DAYS : Z := 999999999.
Definition MAXORDINAL : Z := 3652059.

Definition C_INT_MIN : Z := - 2 ^ 31.
Definition C_INT_MAX : Z := 2 ^ 31 - 1.

(** [timedelta(hours=h)].  The days of the result have to fit a C [int]
    and to be of magnitude 999999999 at most. *)
Definition timedelta_hours (h : Z) : result timedelta :=
  let td := h * 3600 * US_PER_SECOND in
  let days := td / US_PER_DAY in
  if (days <? C_INT_MIN) || (C_INT_MAX <? days)
  then Raise (OverflowError "Python int too large to convert to C int")
  else if Z.abs days <=? MAX_DELTA_DAYS
  then Ok td
  else Raise (OverflowError ("days=" ++ Z_str days ++ "; must have magnitude <= 999999999")).

Definition repr_part (name : string) (value : Z) : list string :=
  if value =? 0 then [] else [name ++ "=" ++ Z_str value].

(** [repr(td)] *)
Definition timedelta_repr (td : timedelta) : string :=
  let parts :=
    List.app (repr_part "days" (td / US_PER_DAY))
      (List.app (repr_part "seconds" ((td mod US_PER_DAY) / US_PER_SECOND))
                (repr_part "microseconds" (td mod US_PER_SECOND))) in
  "datetime.timedelta("
  ++ match parts with [] => "0" | _ => str_join ", " parts end ++ ")".

(** A fixed-offset [timezone]; [tz_offset] is its [utcoffset]. *)
Record timezone : Type := { tz_offset : timedelta }.

(** [timezone(offset)]: the offset lies strictly between -24h and +24h. *)
Definition mk_timezone (offset : timedelta) : result timezone :=
  if (- US_PER_DAY <? offset) && (offset <? US_PER_DAY)
  then Ok {| tz_offset := offset |}
  else Raise (ValueError
    ("offset must be a timedelta strictly between -timedelta(hours=24) and timedelta(hours=24), not "
     ++ timedelta_repr offset ++ ".")).

Definition timezone_utc : timezone := {| tz_offset := 0 |}.

(** A [datetime.datetime]: calendar fields and an optional [tzinfo]
    ([None] for a naive value, as the store returns them). *)
Record datetime : Type := {
  year : Z; month : Z; day : Z;
  hour : Z; minute : Z; second : Z; microsecond : Z;
  tzinfo : option timezone
}.

Definition is_leap (y : Z) : bool :=
  (y mod 4 =? 0) && (negb (y mod 100 =? 0) || (y mod 400 =? 0)).

Definition days_before_year (y : Z) : Z :=
  let p := y - 1 in p * 365 + p / 4 - p / 100 + p / 400.

Definition DAYS_IN_MONTH (m : Z) : Z :=
  match m with
  | 1 => 31 | 2 => 28 | 3 => 31 | 4 => 30 | 5 => 31 | 6 => 30
  | 7 => 31 | 8 => 31 | 9 => 30 | 10 => 31 | 11 => 30 | 12 => 31
  | _ => -1
  end.

Definition DAYS_BEFORE_MONTH (m : Z) : Z :=
  match m with
  | 1 => 0 | 2 => 31 | 3 => 59 | 4 => 90 | 5 => 120 | 6 => 151
  | 7 => 181 | 8 => 212 | 9 => 243 | 10 => 273 | 11 => 304 | 12 => 334
  | _ => -1
  end.

Definition days_before_month (y m : Z) : Z :=
  DAYS_BEFORE_MONTH m + (if (2 <? m) && is_leap y then 1 else 0).

(** Proleptic Gregorian ordinal, 0001-01-01 being day 1. *)
Definition ymd2ord (y m d : Z) : Z :=
  days_before_year y + days_before_month y m + d.

Definition ord2ymd (ordinal : Z) : Z * Z * Z :=
  let n := ordinal - 1 in
  let n400 := n / 146097 in
  let n := n mod 146097 in
  let y := n400 * 400 + 1 in
  let n100 := n / 36524 in
  let n := n mod 36524 in
  let n4 := n / 1461 in
  let n := n mod 1461 in
  let n1 := n / 365 in
  let n := n mod 365 in
  let y := y + n100 * 100 + n4 * 4 + n1 in
  if (n1 =? 4) || (n100 =? 4) then (y - 1, 12, 31)
  else
    let leapyear := (n1 =? 3) && (negb (n4 =? 24) || (n100 =? 3)) in
    let m := Z.shiftr (n + 50) 5 in
    let preceding := DAYS_BEFORE_MONTH m + (if (2 <? m) && leapyear then 1 else 0) in
    if n <? preceding
    then
      let m' := m - 1 in
      let preceding' :=
        preceding - (DAYS_IN_MONTH m' + (if (m' =? 2) && leapyear then 1 else 0)) in
      (y, m', n - preceding' + 1)
    else (y, m, n - preceding + 1).

(** Microseconds of the wall clock since the start of ordinal day 0. *)
Definition wall_us (d : datetime) : Z :=
  ((ymd2ord (year d) (month d) (day d) * 86400
    + hour d * 3600 + minute d * 60 + second d) * US_PER_SECOND)
  + microsecond d.

Definition of_wall_us (t : Z) (tz : option timezone) : datetime :=
  let days := t / US_PER_DAY in
  let rem := t mod US_PER_DAY in
  let secs := rem / US_PER_SECOND in
  let '(y, m, d) := ord2ymd days in
  {| year := y; month := m; day := d;
     hour := secs / 3600; minute := (secs mod 3600) / 60; second := secs mod 60;
     microsecond := rem mod US_PER_SECOND;
     tzinfo := tz |}.

(** [dt + delta], keeping [tzinfo]; out of 0001..9999 it overflows. *)
Definition datetime_add (d : datetime) (delta : timedelta) : result datetime :=
  let t := wall_us d + delta in
  let days := t / US_PER_DAY in
  if (0 <? days) && (days <=? MAXORDINAL)
  then Ok (of_wall_us t (tzinfo d))
  else Raise (OverflowError "date value out of range").

Definition replace_tzinfo (d : datetime) (tz : option timezone) : datetime :=
  {| year := year d; month := month d; day := day d;
     hour := hour d; minute := minute d; second := second d;
     microsecond := microsecond d; tzinfo := tz |}.

(** [dt.astimezone(tz)].  A naive [dt] is taken to be in the system's
    local time, whose offset at [dt] the platform supplies ([local]). *)
Definition astimezone (local : datetime -> timedelta) (d : datetime) (tz : timezone)
  : result datetime :=
  let myoffset :=
    match tzinfo d with
    | Some mytz => tz_offset mytz
    | None => local d
    end in
  utc <- datetime_add d (- myoffset) ;;
  datetime_add (replace_tzinfo utc (Some tz)) (tz_offset tz).

(** The absolute instant a timezone-aware value denotes (microseconds, UTC). *)
Definition instant (local : datetime -> timedelta) (d : datetime) : Z :=
  wall_us d - match tzinfo d with Some tz => tz_offset tz | None => local d end.

Definition format_offset (off : timedelta) : string :=
  let sign := if off <? 0 then "-" else "+" in
  let a := Z.abs off in
  let hh := a / (3600 * US_PER_SECOND) in
  let r := a mod (3600 * US_PER_SECOND) in
  let mm := r / (60 * US_PER_SECOND) in
  let ss := r mod (60 * US_PER_SECOND) in
  sign ++ zero_padded 2 hh ++ ":" ++ zero_padded 2 mm
  ++ (if ss =? 0 then ""
      else ":" ++ zero_padded 2 (ss / US_PER_SECOND)
           ++ (if ss mod US_PER_SECOND =? 0 then ""
               else "." ++ zero_padded 6 (ss mod US_PER_SECOND))).

(** [dt.isoformat()] *)
Definition isoformat (d : datetime) : string :=
  zero_padded 4 (year d) ++ "-" ++ zero_padded 2 (month d) ++ "-"
  ++ zero_padded 2 (day d) ++ "T" ++ zero_padded 2 (hour d) ++ ":"
  ++ zero_padded 2 (minute d) ++ ":" ++ zero_padded 2 (second d)
  ++ (if microsecond d =? 0 then "" else "." ++ zero_padded 6 (microsecond d))
  ++ match tzinfo d with
     | Some tz => format_offset (tz_offset tz)
     | None => ""
     end.

(** ** The [uuid] module *)

(** [UUID(bytes=b, version=4).int], [r] being [int.from_bytes(b)] for the
    16 bytes that [os.urandom] returned: the variant bits are set to
    RFC 4122 and the version nibble to 4. *)
Definition uuid4_int (r : Z) : Z :=
  let i := Z.land r (Z.ones 128) in
  let i := Z.land i (Z.lnot (Z.shiftl 49152 48)) in
  let i := Z.lor i (Z.shiftl 32768 48) in
  let i := Z.land i (Z.lnot (Z.shiftl 61440 64)) in
  Z.lor i (Z.shiftl 4 76).

Definition substring (a b : nat) (s : string) : string := take (b - a) (drop a s).

(** [str(UUID)]: 32 hexadecimal digits grouped 8-4-4-4-12. *)
Definition uuid_str (i : Z) : string :=
  let hex := hex_padded 32 i in
  substring 0 8 hex ++ "-" ++ substring 8 12 hex ++ "-" ++ substring 12 16 hex
  ++ "-" ++ substring 16 20 hex ++ "-" ++ drop 20 hex.

(** ** Values fetched from the store

    A [str] is modelled by the sequence of its code points, each below
    256. *)

Inductive Value : Type :=
| VStr (s : string)
| VInt (z : Z)
| VDatetime (d : datetime)
| VNone.

Definition type_name (v : Value) : string :=
  match v with
  | VStr _ => "str"
  | VInt _ => "int"
  | VDatetime _ => "datetime.datetime"
  | VNone => "NoneType"
  end.

Definition timezone_eqb (a b : timezone) : bool := tz_offset a =? tz_offset b.

Definition datetime_eqb (a b : datetime) : bool :=
  (year a =? year b) && (month a =? month b) && (day a =? day b)
  && (hour a =? hour b) && (minute a =? minute b) && (second a =? second b)
  && (microsecond a =? microsecond b)
  && match tzinfo a, tzinfo b with
     | Some x, Some y => timezone_eqb x y
     | None, None => true
     | _, _ => false
     end.

(** SQL equality of two attribute values: NULL equals nothing. *)
Definition sql_eqb (a b : Value) : bool :=
  match a, b with
  | VStr x, VStr y => String.eqb x y
  | VInt x, VInt y => x =? y
  | VDatetime x, VDatetime y => datetime_eqb x y
  | _, _ => false
  end.

(** A Python [dict] with string keys, in insertion order. *)
Definition dict := list (string * Value).

Fixpoint dict_get (k : string) (d : dict) : option Value :=
  match d with
  | [] => None
  | (k', v) :: rest => if String.eqb k k' then Some v else dict_get k rest
  end.

(** [k in d] *)
Definition dict_contains (k : string) (d : dict) : bool :=
  match dict_get k d with Some _ => true | None => false end.

(** [d.get(k, default)] *)
Definition dict_get_default (k : string) (default : Value) (d : dict) : Value :=
  match dict_get k d with Some v => v | None => default end.

(** [d[k]] *)
Definition dict_getitem (k : string) (d : dict) : result Value :=
  match dict_get k d with
  | Some v => Ok v
  | None => Raise (KeyError k)
  end.

Definition dict_values (d : dict) : list Value := map snd d.

(** [sep.join(values)]: every item has to be a [str]; [i] is the index of
    the first of [vs] in the sequence. *)
Fixpoint all_str (i : nat) (vs : list Value) : result (list string) :=
  match vs with
  | [] => Ok []
  | VStr s :: rest => ss <- all_str (S i) rest ;; Ok (s :: ss)
  | v :: _ =>
      Raise (TypeError ("sequence item " ++ nat_str i ++ ": expected str instance, "
                        ++ type_name v ++ " found"))
  end.

Definition py_join (sep : string) (vs : list Value) : result string :=
  ss <- all_str 0 vs ;; Ok (str_join sep ss).

(** ** [int(str)]

    A [str] is modelled by its code points, each below 256.  [int] first
    turns the two white-space code points above 126 into a space; it then
    reads the ASCII text: white space, a sign, decimal digits with single
    underscores between them, white space. *)

(** White space for [int]'s reader: tab to carriage return, and space. *)
Definition is_space (c : ascii) : bool :=
  let n := nat_of_ascii c in
  ((9 <=? n) && (n <=? 13) || (n =? 32))%nat.

Definition is_digit (c : ascii) : bool :=
  let n := nat_of_ascii c in ((48 <=? n) && (n <=? 57))%nat.

(** NEXT LINE (133) and NO-BREAK SPACE (160) count as a space. *)
Definition space_to_ascii (c : ascii) : ascii :=
  let n := nat_of_ascii c in
  if ((n =? 133) || (n =? 160))%nat then " "%char else c.

Fixpoint to_ascii_form (s : string) : string :=
  match s with
  | EmptyString => EmptyString
  | String c s' => String (space_to_ascii c) (to_ascii_form s')
  end.

Fixpoint lstrip (s : string) : string :=
  match s with
  | String c s' => if is_space c then lstrip s' else s
  | EmptyString => EmptyString
  end.

(** The digits at the head of [s]: their value, their number and what
    follows them; [None] for a leading, doubled or trailing underscore. *)
Fixpoint scan_digits (acc : Z) (count : nat) (after_digit : bool) (s : string)
  : option (Z * nat * string) :=
  match s with
  | String c s' =>
      if is_digit c
      then scan_digits (acc * 10 + (Z.of_nat (nat_of_ascii c) - 48)) (S count) true s'
      else if Ascii.eqb c "_"
      then if after_digit then scan_digits acc count false s' else None
      else if after_digit || Nat.eqb count 0 then Some (acc, count, s) else None
  | EmptyString => if after_digit || Nat.eqb count 0 then Some (acc, count, s) else None
  end.

Definition MAX_STR_DIGITS : nat := 4300.

Definition invalid_literal (s : string) : exn :=
  ValueError ("invalid literal for int() with base 10: " ++ take 200 (py_repr s)).

(** [int(s)], base 10. *)
Definition py_int (s : string) : result Z :=
  let text := lstrip (to_ascii_form s) in
  let '(negative, digits) :=
    match text with
    | String "+" rest => (false, rest)
    | String "-" rest => (true, rest)
    | _ => (false, text)
    end in
  match scan_digits 0 0 false digits with
  | None => Raise (invalid_literal s)
  | Some (_, O, _) => Raise (invalid_literal s)
  | Some (value, count, rest) =>
      if (MAX_STR_DIGITS <? count)%nat
      then Raise (ValueError
             ("Exceeds the limit (4300 digits) for integer string conversion: value has "
              ++ nat_str count
              ++ " digits; use sys.set_int_max_str_digits() to increase the limit"))
      else match lstrip rest with
           | EmptyString => Ok (if negative then - value else value)
           | _ => Raise (invalid_literal s)
           end
  end.

(** ** The relational store (DataJoint query expressions) *)

Module dj.

(** A table or query expression: the attribute names of its heading,
    those of its primary key, and its rows in fetch order.  A row is the
    [dict] that fetching it returns, one entry per heading attribute. *)
Record Table : Type := {
  heading : list string;
  primary_key : list string;
  rows : list dict
}.

Definition in_names (a : string) (names : list string) : bool :=
  existsb (String.eqb a) names.

(** [len(t)] *)
Definition len (t : Table) : nat := List.length (rows t).

(** [bool(t)] *)
Definition truthy (t : Table) : bool := negb (Nat.eqb (len t) 0).

(** A row satisfies a [dict] condition when it equals the condition on
    every attribute of the condition that the heading has; the
    condition's other entries are ignored. *)
Definition row_matches (names : list string) (cond row : dict) : bool :=
  forallb
    (fun kv : string * Value =>
       if in_names (fst kv) names
       then match dict_get (fst kv) row with
            | Some v => sql_eqb v (snd kv)
            | None => false
            end
       else true)
    cond.

(** [t & cond] for a [dict] *)
Definition restrict (t : Table) (cond : dict) : Table :=
  {| heading := heading t;
     primary_key := primary_key t;
     rows := filter (row_matches (heading t) cond) (rows t) |}.

(** Two rows agree on each of the attributes [names]. *)
Definition agree (names : list string) (r r' : dict) : bool :=
  forallb
    (fun a => match dict_get a r, dict_get a r' with
              | Some x, Some y => sql_eqb x y
              | _, _ => false
              end)
    names.

Definition common (t u : Table) : list string :=
  filter (fun a => in_names a (heading u)) (heading t).

(** [t & u] for a table [u]: the rows of [t] with a partner in [u]. *)
Definition restrict_by (t u : Table) : Table :=
  {| heading := heading t;
     primary_key := primary_key t;
     rows := filter (fun r => existsb (agree (common t u) r) (rows u)) (rows t) |}.

Definition project (names : list string) (r : dict) : dict :=
  flat_map (fun a => match dict_get a r with
                     | Some v => [(a, v)]
                     | None => []
                     end) names.

(** [t.join(u, left=True)]: a natural left join.  A row of [t] without a
    partner in [u] is kept, with NULL in the attributes that only [u]
    has; fetching returns NULL as [None]. *)
Definition join_left (t u : Table) : Table :=
  let extra := filter (fun a => negb (in_names a (heading t))) (heading u) in
  {| heading := (heading t ++ extra)%list;
     primary_key := primary_key t;
     rows :=
       flat_map
         (fun r =>
            match filter (agree (common t u) r) (rows u) with
            | [] => [(r ++ map (fun a => (a, VNone)) extra)%list]
            | partners => map (fun r' => (r ++ project extra r')%list) partners
            end)
         (rows t) |}.

(** No primary-key attribute of the row is NULL (the store guarantees it
    for every stored row). *)
Definition key_not_null (t : Table) (r : dict) : bool :=
  forallb (fun a => match dict_get a r with
                    | Some VNone => false
                    | _ => true
                    end)
          (primary_key t).

(** [t.fetch1()] *)
Definition fetch1 (t : Table) : result dict :=
  match rows t with
  | [r] => Ok r
  | _ => Raise (DataJointError "fetch1 requires exactly one tuple in the input set.")
  end.

(** [t.fetch1("KEY")]: the primary key of the only row. *)
Definition fetch1_KEY (t : Table) : result dict :=
  match rows t with
  | [r] => Ok (project (primary_key t) r)
  | _ => Raise (DataJointError ("fetch1 should only return one tuple. "
                                ++ nat_str (len t) ++ " tuples found"))
  end.

(** [t.fetch(attr)]: the column, in fetch order. *)
Definition fetch (t : Table) (attr : string) : result (list Value) :=
  if in_names attr (heading t)
  then Ok (map (dict_get_default attr VNone) (rows t))
  else Raise (DataJointError ("Attribute `" ++ attr ++ "` is not found"))%string.

End dj.

(** ** pynwb *)

Module pynwb.

(** [pynwb.file.Subject] *)
Record Subject : Type := {
  subject_id : option string;
  sex : option string;
  date_of_birth : option datetime;
  description : option string
}.

(** The subject that [pynwb.file.Subject(subject_id=s)] makes; the call
    itself, with the draw for the object id, is [Subject_new] below. *)
Definition Subject_of_id (s : string) : Subject :=
  {| subject_id := Some s; sex := None; date_of_birth := None; description := None |}.

(** The fields of [pynwb.NWBFile] that [session_to_nwb] can set. *)
Record NWBFile : Type := {
  session_description : string;
  identifier : string;
  session_start_time : datetime;
  session_id : option string;
  experimenter : option (list Value);
  subject : option Subject;
  institution : option string;
  lab : option string
}.

End pynwb.

(** ** [nwbfile_kwargs]

    The keyword arguments collected for [NWBFile].  The keys are known
    statically, so the [dict] is a record; [None] is a key not set. *)
Record kwargs : Type := {
  kw_session_id : option string;
  kw_identifier : option string;
  kw_session_start_time : option datetime;
  kw_session_description : option Value;
  kw_experimenter : option (option (list Value));
  kw_subject : option pynwb.Subject;
  kw_institution : option Value;
  kw_lab : option Value
}.

Definition update_session_start_time (kw : kwargs) (d : datetime) : kwargs :=
  {| kw_session_id := kw_session_id kw; kw_identifier := kw_identifier kw;
     kw_session_start_time := Some d;
     kw_session_description := kw_session_description kw;
     kw_experimenter := kw_experimenter kw; kw_subject := kw_subject kw;
     kw_institution := kw_institution kw; kw_lab := kw_lab kw |}.

Definition update_session_description (kw : kwargs) (v : Value) : kwargs :=
  {| kw_session_id := kw_session_id kw; kw_identifier := kw_identifier kw;
     kw_session_start_time := kw_session_start_time kw;
     kw_session_description := Some v;
     kw_experimenter := kw_experimenter kw; kw_subject := kw_subject kw;
     kw_institution := kw_institution kw; kw_lab := kw_lab kw |}.

Definition update_experimenter (kw : kwargs) (e : option (list Value)) : kwargs :=
  {| kw_session_id := kw_session_id kw; kw_identifier := kw_identifier kw;
     kw_session_start_time := kw_session_start_time kw;
     kw_session_description := kw_session_description kw;
     kw_experimenter := Some e; kw_subject := kw_subject kw;
     kw_institution := kw_institution kw; kw_lab := kw_lab kw |}.

Definition update_subject (kw : kwargs) (s : pynwb.Subject) : kwargs :=
  {| kw_session_id := kw_session_id kw; kw_identifier := kw_identifier kw;
     kw_session_start_time := kw_session_start_time kw;
     kw_session_description := kw_session_description kw;
     kw_experimenter := kw_experimenter kw; kw_subject := Some s;
     kw_institution := kw_institution kw; kw_lab := kw_lab kw |}.

Definition update_institution_lab (kw : kwargs) (i l : Value) : kwargs :=
  {| kw_session_id := kw_session_id kw; kw_identifier := kw_identifier kw;
     kw_session_start_time := kw_session_start_time kw;
     kw_session_description := kw_session_description kw;
     kw_experimenter := kw_experimenter kw; kw_subject := kw_subject kw;
     kw_institution := Some i; kw_lab := Some l |}.

(** An optional [str] argument of [NWBFile]: a [str] or [None]. *)
Definition optional_str (name : string) (v : option Value) : result (option string) :=
  match v with
  | None | Some VNone => Ok None
  | Some (VStr s) => Ok (Some s)
  | Some other =>
      Raise (TypeError ("NWBFile.__init__: incorrect type for '" ++ name ++ "' (got '"
                        ++ type_name other ++ "', expected 'str')"))
  end.

(** A required [str] argument of [NWBFile]. *)
Definition required_str (name : string) (v : option Value) : result string :=
  match v with
  | Some (VStr s) => Ok s
  | Some VNone =>
      Raise (TypeError ("NWBFile.__init__: None is not allowed for '" ++ name
                        ++ "' (expected 'str', not None)"))
  | Some other =>
      Raise (TypeError ("NWBFile.__init__: incorrect type for '" ++ name ++ "' (got '"
                        ++ type_name other ++ "', expected 'str')"))
  | None => Raise (TypeError ("NWBFile.__init__: missing argument '" ++ name ++ "'"))
  end.

(** The checks of [pynwb.NWBFile]'s constructor on the collected keyword
    arguments: it checks the type of each argument and stores it.
    [session_description], [identifier] and [session_start_time] are
    required.  The call itself, with the draw for the object id, is
    [NWBFile_new] below. *)
Definition NWBFile_init (kw : kwargs) : result pynwb.NWBFile :=
  description <- required_str "session_description" (kw_session_description kw) ;;
  ident <- required_str "identifier" (option_map VStr (kw_identifier kw)) ;;
  start <- match kw_session_start_time kw with
           | Some d => Ok d
           | None => Raise (TypeError "NWBFile.__init__: missing argument 'session_start_time'")
           end ;;
  inst <- optional_str "institution" (kw_institution kw) ;;
  lab <- optional_str "lab" (kw_lab kw) ;;
  Ok {| pynwb.session_description := description;
        pynwb.identifier := ident;
        pynwb.session_start_time := start;
        pynwb.session_id := kw_session_id kw;
        pynwb.experimenter := match kw_experimenter kw with Some e => e | None => None end;
        pynwb.subject := kw_subject kw;
        pynwb.institution := inst;
        pynwb.lab := lab |}.

(** ** The world around the call *)

(** The module's global namespace, for the five names that the function
    uses and that no statement of [nwb.py] binds: [true] when the name is
    bound all the same (set on the module from outside) to the object it
    stands for, that is the subject provider's [subject] module, the lab
    provider's [lab] module, [datetime.timedelta], [datetime.timezone] and
    DataJoint's [DataJointError]. *)
Record Globals : Type := {
  subject_bound : bool;
  lab_bound : bool;
  timedelta_bound : bool;
  timezone_bound : bool;
  DataJointError_bound : bool
}.

(** The namespace of the module as it is shipped. *)
Definition SHIPPED : Globals :=
  {| subject_bound := false; lab_bound := false; timedelta_bound := false;
     timezone_bound := false; DataJointError_bound := false |}.

(** The namespace with the five names set. *)
Definition PATCHED : Globals :=
  {| subject_bound := true; lab_bound := true; timedelta_bound := true;
     timezone_bound := true; DataJointError_bound := true |}.

(** What surrounds a call of [session_to_nwb].  [session] is the sibling
    module with the session tables.  [subject_Subject], [subject_Subject_Lab]
    and [lab_Lab] are the providers' tables, reached through the names
    [subject] and [lab] when [module_globals] binds them.  [subject_to_nwb]
    is the subject provider's translation, given by the [pynwb] subject it
    returns.  [local_utcoffset] is the platform's local UTC offset at a
    naive wall-clock time, and [os_urandom n] is the integer value of the 16
    bytes that the [n]-th call of [os.urandom(16)] returns. *)
Record World : Type := {
  module_globals : Globals;
  Session : dj.Table;
  SessionNote : dj.Table;
  SessionExperimenter : dj.Table;
  HAVE_ELEMENT_ANIMAL : bool;
  subject_schema_is_activated : bool;
  subject_Subject : dj.Table;
  subject_Subject_Lab : dj.Table;
  subject_to_nwb : dj.Table -> result pynwb.Subject;
  HAVE_ELEMENT_LAB : bool;
  lab_schema_is_activated : bool;
  lab_Lab : dj.Table;
  local_utcoffset : datetime -> timedelta;
  os_urandom : nat -> Z
}.

(** Computations that may raise and that count the draws from
    [os.urandom] made so far. *)
Definition M (A : Type) : Type := nat -> result A * nat.

Definition mbind {A B : Type} (m : M A) (k : A -> M B) : M B :=
  fun n =>
    match m n with
    | (Ok a, n') => k a n'
    | (Raise e, n') => (Raise e, n')
    end.

Definition lift {A : Type} (r : result A) : M A := fun n => (r, n).

Notation "x <~ m ;; k" := (mbind m (fun x => k))
  (at level 61, m at next level, right associativity).

(** [uuid4()] *)
Definition uuid4 (w : World) : M Z :=
  fun n => (Ok (uuid4_int (os_urandom w n)), S n).

(** Every [pynwb] container takes a fresh object id, a [uuid4()], when it
    is allocated, before its constructor checks the arguments. *)
Definition container_object_id (w : World) : M unit :=
  u <~ uuid4 w ;; lift (Ok tt).

(** [pynwb.file.Subject(subject_id=s)] *)
Definition Subject_new (w : World) (s : string) : M pynwb.Subject :=
  o <~ container_object_id w ;; lift (Ok (pynwb.Subject_of_id s)).

(** [pynwb.NWBFile] called with the collected keyword arguments. *)
Definition NWBFile_new (w : World) (kw : kwargs) : M pynwb.NWBFile :=
  o <~ container_object_id w ;; lift (NWBFile_init kw).

(** [subject_to_nwb(subject_key)]: the subject that the provider returns is
    a container it has allocated, hence one draw; a provider that raises
    is taken to raise before that. *)
Definition call_subject_to_nwb (w : World) (subject_key : dj.Table) : M pynwb.Subject :=
  match subject_to_nwb w subject_key with
  | Ok subj => o <~ container_object_id w ;; lift (Ok subj)
  | Raise e => lift (Raise e)
  end.

(** [v[:n]] and [v[n:]]; only a [str] can be sliced here. *)
Definition slice_to (n : nat) (v : Value) : result string :=
  match v with
  | VStr s => Ok (take n s)
  | other => Raise (TypeError ("'" ++ type_name other ++ "' object is not subscriptable"))
  end.

Definition slice_from (n : nat) (v : Value) : result string :=
  match v with
  | VStr s => Ok (drop n s)
  | other => Raise (TypeError ("'" ++ type_name other ++ "' object is not subscriptable"))
  end.

(** [v.astimezone(tz)]; only a [datetime] has the method. *)
Definition value_astimezone (w : World) (v : Value) (tz : timezone) : result datetime :=
  match v with
  | VDatetime d => astimezone (local_utcoffset w) d tz
  | other =>
      Raise (AttributeError ("'" ++ type_name other ++ "' object has no attribute 'astimezone'"))
  end.

(** The world with the module's global namespace replaced. *)
Definition with_globals (w : World) (g : Globals) : World :=
  {| module_globals := g;
     Session := Session w;
     SessionNote := SessionNote w;
     SessionExperimenter := SessionExperimenter w;
     HAVE_ELEMENT_ANIMAL := HAVE_ELEMENT_ANIMAL w;
     subject_schema_is_activated := subject_schema_is_activated w;
     subject_Subject := subject_Subject w;
     subject_Subject_Lab := subject_Subject_Lab w;
     subject_to_nwb := subject_to_nwb w;
     HAVE_ELEMENT_LAB := HAVE_ELEMENT_LAB w;
     lab_schema_is_activated := lab_schema_is_activated w;
     lab_Lab := lab_Lab w;
     local_utcoffset := local_utcoffset w;
     os_urandom := os_urandom w |}.

(** The world with the module as it is shipped. *)
Definition shipped (w : World) : World := with_globals w SHIPPED.

(** The world with another lab provider: its availability, activation,
    table and the names that only the lab part uses. *)
Definition with_lab_provider (w : World) (have activated : bool) (labs : dj.Table)
           (lab_name timedelta_name timezone_name DataJointError_name : bool) : World :=
  {| module_globals :=
       {| subject_bound := subject_bound (module_globals w);
          lab_bound := lab_name;
          timedelta_bound := timedelta_name;
          timezone_bound := timezone_name;
          DataJointError_bound := DataJointError_name |};
     Session := Session w;
     SessionNote := SessionNote w;
     SessionExperimenter := SessionExperimenter w;
     HAVE_ELEMENT_ANIMAL := HAVE_ELEMENT_ANIMAL w;
     subject_schema_is_activated := subject_schema_is_activated w;
     subject_Subject := subject_Subject w;
     subject_Subject_Lab := subject_Subject_Lab w;
     subject_to_nwb := subject_to_nwb w;
     HAVE_ELEMENT_LAB := have;
     lab_schema_is_activated := activated;
     lab_Lab := labs;
     local_utcoffset := local_utcoffset w;
     os_urandom := os_urandom w |}.

Definition MULTIPLE_LABS : string :=
  "Multiple labs associated with this session. Try restricting your session key to specify lab.".

Definition MISSING_SUBJECT_ID : string :=
  "If you are not using element_animal, you musts specify a subject_id.".

(** ** [session_to_nwb]

    The body of the function is given in three parts, in source order:
    [session_metadata] (lines 56-79), [lab_metadata] (lines 88-111, nested
    in the subject branch) and [session_to_nwb] itself (lines 81-120). *)

(** [lab.Lab & subject.Subject.Lab() & session_key] *)
Definition lab_query (w : World) (session_key : dict) : dj.Table :=
  dj.restrict (dj.restrict_by (lab_Lab w) (subject_Subject_Lab w)) session_key.

(** Lines 88-111: the lab provider's part, run after the subject
    sub-record is in [nwbfile_kwargs]. *)
Definition lab_metadata (w : World) (session_key : dict) (nwbfile_kwargs : kwargs)
  : result kwargs :=
  let g := module_globals w in
  if HAVE_ELEMENT_LAB w && lab_schema_is_activated w
  then
    global "lab" (lab_bound g) ;;;
    global "subject" (subject_bound g) ;;;
    let lab_query := lab_query w session_key in
    if dj.truthy lab_query
    then
      except_DataJointError (DataJointError_bound g)
        (lab_record <- dj.fetch1 lab_query ;;
         let nwbfile_kwargs :=
           update_institution_lab nwbfile_kwargs
             (dict_get_default "institution" VNone lab_record)
             (dict_get_default "lab_name" VNone lab_record) in
         is_utc <- (if dict_contains "time_zone" lab_record
                    then tz <- dict_getitem "time_zone" lab_record ;;
                         prefix <- slice_to 3 tz ;;
                         Ok (String.eqb prefix "UTC")
                    else Ok false) ;;
         if is_utc : bool
         then
           tz <- dict_getitem "time_zone" lab_record ;;
           rest <- slice_from 3 tz ;;
           hours <- py_int rest ;;
           global "timedelta" (timedelta_bound g) ;;;
           hours_timedelta <- timedelta_hours hours ;;
           start <- match kw_session_start_time nwbfile_kwargs with
                    | Some d => Ok d
                    | None => Raise (KeyError "session_start_time")
                    end ;;
           global "timezone" (timezone_bound g) ;;;
           zone <- mk_timezone hours_timedelta ;;
           (* the value that [astimezone] returns is not bound to anything *)
           astimezone (local_utcoffset w) start zone ;;;
           Ok nwbfile_kwargs
         else Ok nwbfile_kwargs)
        MULTIPLE_LABS
    else Ok nwbfile_kwargs
  else Ok nwbfile_kwargs.

(** Lines 56-79: the session's own metadata.  The result is the resolved
    [session_key] together with [nwbfile_kwargs] as they stand before the
    providers are consulted. *)
Definition session_metadata (w : World) (session_key : dict) : M (dict * kwargs) :=
  (* ensure only one session key is entered *)
  session_key <~ lift (dj.fetch1_KEY (dj.restrict (Session w) session_key)) ;;
  let session_identifier : dict :=
    map (fun kv : string * Value =>
           (fst kv, match snd kv with
                    | VDatetime d => VStr (isoformat d)
                    | v => v
                    end))
        session_key in
  session_id <~ lift (py_join "_" (dict_values session_identifier)) ;;
  u <~ uuid4 w ;;
  let nwbfile_kwargs :=
    {| kw_session_id := Some session_id; kw_identifier := Some (uuid_str u);
       kw_session_start_time := None; kw_session_description := None;
       kw_experimenter := None; kw_subject := None;
       kw_institution := None; kw_lab := None |} in
  lift
    (session_info <-
       dj.fetch1 (dj.join_left (dj.restrict (Session w) session_key) (SessionNote w)) ;;
     session_datetime <- dict_getitem "session_datetime" session_info ;;
     start <- value_astimezone w session_datetime timezone_utc ;;
     let nwbfile_kwargs := update_session_start_time nwbfile_kwargs start in
     let nwbfile_kwargs :=
       update_session_description nwbfile_kwargs
         (dict_get_default "session_note" (VStr "") session_info) in
     experimenters <-
       dj.fetch (dj.restrict (SessionExperimenter w) session_key) "experimenter" ;;
     let nwbfile_kwargs :=
       update_experimenter nwbfile_kwargs
         (match experimenters with [] => None | _ => Some experimenters end) in
     Ok (session_key, nwbfile_kwargs)).

(** Lines 81-120: the subject and lab providers, and the constructor. *)
Definition session_to_nwb (w : World) (session_key : dict) (subject_id : option string)
  : M pynwb.NWBFile :=
  resolved <~ session_metadata w session_key ;;
  let session_key := fst resolved in
  let nwbfile_kwargs := snd resolved in
  if HAVE_ELEMENT_ANIMAL w && subject_schema_is_activated w
  then
    o <~ lift (global "subject" (subject_bound (module_globals w))) ;;
    let subject_key := dj.restrict (subject_Subject w) session_key in
    subj <~ call_subject_to_nwb w subject_key ;;
    let nwbfile_kwargs := update_subject nwbfile_kwargs subj in
    nwbfile_kwargs <~ lift (lab_metadata w session_key nwbfile_kwargs) ;;
    NWBFile_new w nwbfile_kwargs
  else
    match subject_id with
    | None => lift (Raise (ValueError MISSING_SUBJECT_ID))
    | Some sid =>
        subj <~ Subject_new w sid ;;
        let nwbfile_kwargs := update_subject nwbfile_kwargs subj in
        NWBFile_new w nwbfile_kwargs
    end.

(** The call's outcome and the number of draws afterwards. *)
Definition run {A : Type} (m : M A) (draws : nat) : result A * nat := m draws.

(** ** A small store used for the concrete runs *)

Module Demo.

(** [datetime.datetime(2020, 5, 12, 4, 13, 7)], naive *)
Definition stamp5 : datetime :=
  {| year := 2020; month := 5; day := 12; hour := 4; minute := 13; second := 7;
     microsecond := 0; tzinfo := None |}.

Definition stamp6 : datetime :=
  {| year := 2021; month := 1; day := 1; hour := 0; minute := 30; second := 0;
     microsecond := 250000; tzinfo := None |}.

Definition session_rows : list dict :=
  [ [("subject", VStr "subject5"); ("session_datetime", VDatetime stamp5)];
    [("subject", VStr "subject6"); ("session_datetime", VDatetime stamp5)];
    [("subject", VStr "subject6"); ("session_datetime", VDatetime stamp6)] ].

Definition session_table : dj.Table :=
  {| dj.heading := ["subject"; "session_datetime"];
     dj.primary_key := ["subject"; "session_datetime"];
     dj.rows := session_rows |}.

Definition note_table : dj.Table :=
  {| dj.heading := ["subject"; "session_datetime"; "session_note"];
     dj.primary_key := ["subject"; "session_datetime"];
     dj.rows :=
       [ [("subject", VStr "subject5"); ("session_datetime", VDatetime stamp5);
          ("session_note", VStr "first run")] ] |}.

Definition experimenter_table : dj.Table :=
  {| dj.heading := ["subject"; "session_datetime"; "experimenter"];
     dj.primary_key := ["subject"; "session_datetime"; "experimenter"];
     dj.rows :=
       [ [("subject", VStr "subject5"); ("session_datetime", VDatetime stamp5);
          ("experimenter", VStr "zoe")];
         [("subject", VStr "subject6"); ("session_datetime", VDatetime stamp6);
          ("experimenter", VStr "bob")];
         [("subject", VStr "subject5"); ("session_datetime", VDatetime stamp5);
          ("experimenter", VStr "amy")] ] |}.

Definition subject_table : dj.Table :=
  {| dj.heading := ["subject"; "sex"];
     dj.primary_key := ["subject"];
     dj.rows :=
       [ [("subject", VStr "subject5"); ("sex", VStr "F")];
         [("subject", VStr "subject6"); ("sex", VStr "M")] ] |}.

Definition affiliation_table (labs : list string) : dj.Table :=
  {| dj.heading := ["subject"; "lab"];
     dj.primary_key := ["subject"; "lab"];
     dj.rows := map (fun l => [("subject", VStr "subject5"); ("lab", VStr l)]) labs |}.

Definition lab_row (name time_zone : string) : dict :=
  [("lab", VStr name); ("lab_name", VStr (name ++ " lab"));
   ("institution", VStr "Example University"); ("time_zone", VStr time_zone)].

Definition lab_table (time_zone : string) : dj.Table :=
  {| dj.heading := ["lab"; "lab_name"; "institution"; "time_zone"];
     dj.primary_key := ["lab"];
     dj.rows := [lab_row "alpha" time_zone; lab_row "beta" "UTC+1"] |}.

(** The subject provider's translation: the only subject of the query. *)
Definition translate_subject (q : dj.Table) : result pynwb.Subject :=
  r <- dj.fetch1 q ;;
  Ok {| pynwb.subject_id :=
          match dict_get "subject" r with Some (VStr s) => Some s | _ => None end;
        pynwb.sex := match dict_get "sex" r with Some (VStr s) => Some s | _ => None end;
        pynwb.date_of_birth := None;
        pynwb.description := None |}.

(** The store with both providers switched by [animal] and [lab]; the
    subject is affiliated with [labs], and lab alpha's [time_zone] is
    [time_zone].  Local time is two hours ahead of UTC.  The module's five
    unbound names are set, so that the provider branch can run; [shipped]
    gives the module as it is. *)
Definition world (animal lab : bool) (labs : list string) (time_zone : string) : World :=
  {| module_globals := PATCHED;
     Session := session_table;
     SessionNote := note_table;
     SessionExperimenter := experimenter_table;
     HAVE_ELEMENT_ANIMAL := animal;
     subject_schema_is_activated := animal;
     subject_Subject := subject_table;
     subject_Subject_Lab := affiliation_table labs;
     subject_to_nwb := translate_subject;
     HAVE_ELEMENT_LAB := lab;
     lab_schema_is_activated := lab;
     lab_Lab := lab_table time_zone;
     local_utcoffset := fun _ => 2 * 3600 * US_PER_SECOND;
     os_urandom := fun n => Z.of_nat n * 2 ^ 80 + 81985529216486895 |}.

Definition key5 : dict :=
  [("subject", VStr "subject5"); ("session_datetime", VDatetime stamp5)].

Definition key6 : dict := [("subject", VStr "subject6")].

Definition key6' : dict :=
  [("subject", VStr "subject6"); ("session_datetime", VDatetime stamp6)].

(** [stamp5] in UTC, the local time being two hours ahead. *)
Definition start5 : datetime :=
  {| year := 2020; month := 5; day := 12; hour := 2; minute := 13; second := 7;
     microsecond := 0; tzinfo := Some timezone_utc |}.

(** What the call returns for [key5] without providers, the caller
    supplying the subject [sid], after [n] earlier draws. *)
Definition artifact5 (sid : string) (n : nat) : pynwb.NWBFile :=
  {| pynwb.session_description := "first run";
     pynwb.identifier := uuid_str (uuid4_int (Z.of_nat n * 2 ^ 80 + 81985529216486895));
     pynwb.session_start_time := start5;
     pynwb.session_id := Some "subject5_2020-05-12T04:13:07";
     pynwb.experimenter := Some [VStr "zoe"; VStr "amy"];
     pynwb.subject := Some (pynwb.Subject_of_id sid);
     pynwb.institution := None;
     pynwb.lab := None |}.

(** What it returns with both providers active and one lab. *)
Definition artifact5_lab (n : nat) : pynwb.NWBFile :=
  {| pynwb.session_description := "first run";
     pynwb.identifier := uuid_str (uuid4_int (Z.of_nat n * 2 ^ 80 + 81985529216486895));
     pynwb.session_start_time := start5;
     pynwb.session_id := Some "subject5_2020-05-12T04:13:07";
     pynwb.experimenter := Some [VStr "zoe"; VStr "amy"];
     pynwb.subject :=
       Some {| pynwb.subject_id := Some "subject5"; pynwb.sex := Some "F";
               pynwb.date_of_birth := None; pynwb.description := None |};
     pynwb.institution := Some "Example University";
     pynwb.lab := Some "alpha lab" |}.

End Demo.

(** ** A second store: two subjects in two labs *)

Module Demo2.

(** [subject5] works in lab alpha, [subject6] in lab beta. *)
Definition affiliation_table : dj.Table :=
  {| dj.heading := ["subject"; "lab"];
     dj.primary_key := ["subject"; "lab"];
     dj.rows := [ [("subject", VStr "subject5"); ("lab", VStr "alpha")];
                  [("subject", VStr "subject6"); ("lab", VStr "beta")] ] |}.

(** Sessions numbered by an integer instead of a timestamp. *)
Definition numbered_sessions : dj.Table :=
  {| dj.heading := ["subject"; "session_id"; "session_datetime"];
     dj.primary_key := ["subject"; "session_id"];
     dj.rows := [ [("subject", VStr "subject5"); ("session_id", VInt 1);
                   ("session_datetime", VDatetime Demo.stamp5)] ] |}.

(** Lab alpha with the given [time_zone] value, and lab beta. *)
Definition lab_table (time_zone : Value) : dj.Table :=
  {| dj.heading := ["lab"; "lab_name"; "institution"; "time_zone"];
     dj.primary_key := ["lab"];
     dj.rows := [ [("lab", VStr "alpha"); ("lab_name", VStr "alpha lab");
                   ("institution", VStr "Example University");
                   ("time_zone", time_zone)];
                  Demo.lab_row "beta" "UTC+1" ] |}.

(** Both providers active and the module's names set; the tables are
    parameters. *)
Definition world (sessions affiliations labs : dj.Table) : World :=
  {| module_globals := PATCHED;
     Session := sessions;
     SessionNote := Demo.note_table;
     SessionExperimenter := Demo.experimenter_table;
     HAVE_ELEMENT_ANIMAL := true;
     subject_schema_is_activated := true;
     subject_Subject := Demo.subject_table;
     subject_Subject_Lab := affiliations;
     subject_to_nwb := Demo.translate_subject;
     HAVE_ELEMENT_LAB := true;
     lab_schema_is_activated := true;
     lab_Lab := labs;
     local_utcoffset := fun _ => 0;
     os_urandom := fun n => Z.of_nat n |}.

End Demo2.

(** A value that [str.join] refuses and that the key's rendering leaves
    as it is. *)
Definition not_text (v : Value) : bool :=
  match v with
  | VInt _ | VNone => true
  | VStr _ | VDatetime _ => false
  end.

(** The [str] that an optional [NWBFile] argument ends up as. *)
Definition str_or_None (v : option Value) : option string :=
  match v with
  | Some (VStr s) => Some s
  | _ => None
  end.

(** How a component of the session key appears in [session_id]: a string
    as it is, a timestamp in ISO 8601 form. *)
Definition rendered (v : Value) (p : string) : Prop :=
  v = VStr p \/ exists d, v = VDatetime d /\ p = isoformat d.

(** The 122 bits of a draw that [uuid4] keeps: all of the 128 but the two
    variant bits and the four version bits. *)
Definition RANDOM_BITS : Z :=
  Z.land (Z.ones 128) (Z.lnot (Z.lor (Z.shiftl 49152 48) (Z.shiftl 61440 64))).

Definition random_bits (r : Z) : Z := Z.land r RANDOM_BITS.

(** The zone that "UTC-5" names. *)
Definition minus_five_hours : timezone := {| tz_offset := -5 * 3600 * US_PER_SECOND |}.

(** The month and day that [ord2ymd] derives from the day [n] of a year
    ([0] being January 1st) count back to [n]. *)
Definition month_day_ok (leap : bool) (n : Z) : bool :=
  let m := Z.shiftr (n + 50) 5 in
  let preceding := DAYS_BEFORE_MONTH m + (if (2 <? m) && leap then 1 else 0) in
  if n <? preceding
  then
    let m' := m - 1 in
    let preceding' :=
      preceding - (DAYS_IN_MONTH m' + (if (m' =? 2) && leap then 1 else 0)) in
    DAYS_BEFORE_MONTH m' + (if (2 <? m') && leap then 1 else 0)
    + (n - preceding' + 1) =? n + 1
  else
    DAYS_BEFORE_MONTH m + (if (2 <? m) && leap then 1 else 0)
    + (n - preceding + 1) =? n + 1.

(** * Properties *)

(** ** Inversion of the two monads *)

Lemma bind_Ok {A B : Type} (m : result A) (k : A -> result B) (b : B) :
  bind m k = Ok b -> exists a, m = Ok a /\ k a = Ok b.
Proof.
  destruct m as [a | e]; simpl; intros H.
  - exists a. split; [reflexivity | exact H].
  - discriminate H.
Qed.

Lemma mbind_Ok {A B : Type} (m : M A) (k : A -> M B) (n n' : nat) (b : B) :
  mbind m k n = (Ok b, n') ->
  exists a n1, m n = (Ok a, n1) /\ k a n1 = (Ok b, n').
Proof.
  unfold mbind. destruct (m n) as [[a | e] n1]; intros H.
  - exists a, n1. split; [reflexivity | exact H].
  - discriminate H.
Qed.

Lemma mbind_ext {A B : Type} (m : M A) (k1 k2 : A -> M B) (n : nat) :
  (forall a n1, k1 a n1 = k2 a n1) -> mbind m k1 n = mbind m k2 n.
Proof.
  intros H. unfold mbind. destruct (m n) as [[a | e] n1]; [apply H | reflexivity].
Qed.

Lemma lift_Ok {A : Type} (r : result A) (n n' : nat) (a : A) :
  lift r n = (Ok a, n') -> r = Ok a /\ n' = n.
Proof. unfold lift. intros H. inversion H. split; reflexivity. Qed.

(** ** The calendar *)

Lemma days_before_year_split (n400 n100 n4 n1 : Z) :
  0 <= n100 <= 3 -> 0 <= n4 <= 24 -> 0 <= n1 <= 3 ->
  days_before_year (n400 * 400 + 1 + n100 * 100 + n4 * 4 + n1)
  = n400 * 146097 + n100 * 36524 + n4 * 1461 + n1 * 365.
Proof.
  intros H100 H4 H1. unfold days_before_year. cbv zeta.
  Z.div_mod_to_equations. lia.
Qed.

Lemma is_leap_split (n400 n100 n4 n1 : Z) :
  0 <= n100 <= 3 -> 0 <= n4 <= 24 -> 0 <= n1 <= 3 ->
  is_leap (n400 * 400 + 1 + n100 * 100 + n4 * 4 + n1)
  = (n1 =? 3) && (negb (n4 =? 24) || (n100 =? 3)).
Proof.
  intros H100 H4 H1. unfold is_leap.
  destruct (Z.eqb_spec n1 3), (Z.eqb_spec n4 24), (Z.eqb_spec n100 3);
  destruct (Z.eqb_spec ((n400 * 400 + 1 + n100 * 100 + n4 * 4 + n1) mod 4) 0);
  destruct (Z.eqb_spec ((n400 * 400 + 1 + n100 * 100 + n4 * 4 + n1) mod 100) 0);
  destruct (Z.eqb_spec ((n400 * 400 + 1 + n100 * 100 + n4 * 4 + n1) mod 400) 0);
  simpl; try reflexivity; exfalso; Z.div_mod_to_equations; lia.
Qed.

Lemma month_day_ok_table :
  forallb (fun n => month_day_ok true n && month_day_ok false n)
          (map Z.of_nat (seq 0 365)) = true.
Proof. vm_compute. reflexivity. Qed.

Lemma month_day_ok_all (leap : bool) (n : Z) :
  0 <= n <= 364 -> month_day_ok leap n = true.
Proof.
  intros Hn. pose proof month_day_ok_table as H.
  rewrite forallb_forall in H.
  specialize (H n). rewrite andb_true_iff in H.
  assert (Hin : In n (map Z.of_nat (seq 0 365))).
  { apply in_map_iff. exists (Z.to_nat n). split; [lia |].
    apply in_seq. lia. }
  destruct leap; [exact (proj1 (H Hin)) | exact (proj2 (H Hin))].
Qed.

Lemma ymd2ord_ord2ymd (n : Z) :
  1 <= n ->
  let '(y, m, d) := ord2ymd n in ymd2ord y m d = n.
Proof.
  intros Hn. unfold ord2ymd. cbv zeta.
  pose proof (Z.div_mod (n - 1) 146097 ltac:(lia)) as E400.
  pose proof (Z.mod_pos_bound (n - 1) 146097 ltac:(lia)) as B400.
  set (n400 := (n - 1) / 146097) in *.
  set (r400 := (n - 1) mod 146097) in *.
  pose proof (Z.div_mod r400 36524 ltac:(lia)) as E100.
  pose proof (Z.mod_pos_bound r400 36524 ltac:(lia)) as B100.
  set (n100 := r400 / 36524) in *.
  set (r100 := r400 mod 36524) in *.
  pose proof (Z.div_mod r100 1461 ltac:(lia)) as E4.
  pose proof (Z.mod_pos_bound r100 1461 ltac:(lia)) as B4.
  set (n4 := r100 / 1461) in *.
  set (r4 := r100 mod 1461) in *.
  pose proof (Z.div_mod r4 365 ltac:(lia)) as E1.
  pose proof (Z.mod_pos_bound r4 365 ltac:(lia)) as B1.
  set (n1 := r4 / 365) in *.
  set (r1 := r4 mod 365) in *.
  assert (H100 : 0 <= n100 <= 4) by lia.
  assert (H4 : 0 <= n4 <= 24) by lia.
  assert (H1 : 0 <= n1 <= 4) by lia.
  destruct (Z.eqb_spec n1 4) as [En1 | Nn1]; simpl orb.
  - unfold ymd2ord, days_before_month.
    replace (n400 * 400 + 1 + n100 * 100 + n4 * 4 + n1 - 1)
      with (n400 * 400 + 1 + n100 * 100 + n4 * 4 + 3) by lia.
    rewrite is_leap_split, days_before_year_split by lia.
    replace (n4 =? 24) with false by (symmetry; apply Z.eqb_neq; lia).
    simpl. lia.
  - destruct (Z.eqb_spec n100 4) as [En100 | Nn100].
    + unfold ymd2ord, days_before_month.
      replace (n400 * 400 + 1 + n100 * 100 + n4 * 4 + n1 - 1)
        with (n400 * 400 + 1 + 3 * 100 + 24 * 4 + 3) by lia.
      rewrite is_leap_split, days_before_year_split by lia.
      simpl. lia.
    + pose proof (month_day_ok_all
                    ((n1 =? 3) && (negb (n4 =? 24) || (n100 =? 3))) r1
                    ltac:(lia)) as Hmd.
      unfold month_day_ok in Hmd. cbv zeta in Hmd.
      set (leap := (n1 =? 3) && (negb (n4 =? 24) || (n100 =? 3))) in *.
      destruct (r1 <? _); unfold ymd2ord, days_before_month;
        rewrite is_leap_split, days_before_year_split by lia;
        fold leap; apply Z.eqb_eq in Hmd; lia.
Qed.

Lemma wall_us_of_wall_us (t : Z) (tz : option timezone) :
  1 <= t / US_PER_DAY -> wall_us (of_wall_us t tz) = t.
Proof.
  intros Hd. unfold of_wall_us.
  pose proof (ymd2ord_ord2ymd (t / US_PER_DAY) Hd) as Hord.
  destruct (ord2ymd (t / US_PER_DAY)) as [[y m] d].
  unfold wall_us. simpl. rewrite Hord.
  unfold US_PER_DAY, US_PER_SECOND in *.
  Z.div_mod_to_equations. lia.
Qed.

Lemma datetime_add_wall_us (d shown : datetime) (delta : timedelta) :
  datetime_add d delta = Ok shown ->
  wall_us shown = wall_us d + delta /\ tzinfo shown = tzinfo d.
Proof.
  unfold datetime_add. intros H.
  destruct (0 <? (wall_us d + delta) / US_PER_DAY) eqn:Hlo; [| discriminate H].
  destruct ((wall_us d + delta) / US_PER_DAY <=? MAXORDINAL); [| discriminate H].
  simpl in H. inversion H; subst shown; clear H.
  apply Z.ltb_lt in Hlo. split.
  - apply wall_us_of_wall_us. lia.
  - unfold of_wall_us. destruct (ord2ymd _) as [[y m] dd]. reflexivity.
Qed.

(** [astimezone] re-expresses a value in another zone: the instant it
    denotes is the same, and its offset is the new zone's. *)
Lemma astimezone_same_instant (local : datetime -> timedelta) (d shown : datetime)
      (tz : timezone) :
  astimezone local d tz = Ok shown ->
  instant local shown = instant local d /\ tzinfo shown = Some tz.
Proof.
  unfold astimezone. intros H.
  apply bind_Ok in H. destruct H as (utc & Hutc & H).
  apply datetime_add_wall_us in Hutc. destruct Hutc as [Hw _].
  apply datetime_add_wall_us in H. destruct H as [Hw' Htz].
  simpl in Htz. unfold instant. rewrite Htz.
  replace (wall_us (replace_tzinfo utc (Some tz))) with (wall_us utc) in Hw'
    by reflexivity.
  split; [| reflexivity].
  unfold timedelta in *. destruct (tzinfo d); lia.
Qed.

(** ** The store *)

Lemma fetch1_KEY_Ok (t : dj.Table) (k : dict) :
  dj.fetch1_KEY t = Ok k ->
  exists r, dj.rows t = [r] /\ k = dj.project (dj.primary_key t) r.
Proof.
  unfold dj.fetch1_KEY.
  destruct (dj.rows t) as [| r [| r' rest]]; intros H; try discriminate H.
  inversion H. exists r. split; reflexivity.
Qed.

Lemma fetch1_KEY_not_one (t : dj.Table) :
  dj.len t <> 1%nat ->
  dj.fetch1_KEY t
  = Raise (DataJointError ("fetch1 should only return one tuple. "
                           ++ nat_str (dj.len t) ++ " tuples found")).
Proof.
  unfold dj.fetch1_KEY, dj.len.
  destruct (dj.rows t) as [| r [| r' rest]]; intros H;
    [reflexivity | contradiction H; reflexivity | reflexivity].
Qed.

(** What a successful [session_metadata] went through. *)
Lemma session_metadata_Ok (w : World) (key : dict) (n n' : nat) (k : dict) (kw : kwargs) :
  session_metadata w key n = (Ok (k, kw), n') ->
  exists session_id info stored start names,
    dj.fetch1_KEY (dj.restrict (Session w) key) = Ok k
    /\ py_join "_" (dict_values
         (map (fun kv : string * Value =>
                 (fst kv, match snd kv with
                          | VDatetime d => VStr (isoformat d)
                          | v => v
                          end)) k)) = Ok session_id
    /\ dj.fetch1 (dj.join_left (dj.restrict (Session w) k) (SessionNote w)) = Ok info
    /\ dict_get "session_datetime" info = Some stored
    /\ value_astimezone w stored timezone_utc = Ok start
    /\ dj.fetch (dj.restrict (SessionExperimenter w) k) "experimenter" = Ok names
    /\ n' = S n
    /\ kw = {| kw_session_id := Some session_id;
               kw_identifier := Some (uuid_str (uuid4_int (os_urandom w n)));
               kw_session_start_time := Some start;
               kw_session_description :=
                 Some (dict_get_default "session_note" (VStr "") info);
               kw_experimenter :=
                 Some (match names with [] => None | _ => Some names end);
               kw_subject := None; kw_institution := None; kw_lab := None |}.
Proof.
  unfold session_metadata. intros H.
  apply mbind_Ok in H. destruct H as (k0 & n1 & Hk & H).
  apply lift_Ok in Hk. destruct Hk as [Hk ->].
  apply mbind_Ok in H. destruct H as (sid & n2 & Hsid & H).
  apply lift_Ok in Hsid. destruct Hsid as [Hsid ->].
  apply mbind_Ok in H. destruct H as (u & n3 & Hu & H).
  unfold uuid4 in Hu. inversion Hu; subst u n3; clear Hu.
  apply lift_Ok in H. destruct H as [H ->].
  apply bind_Ok in H. destruct H as (info & Hinfo & H).
  apply bind_Ok in H. destruct H as (stored & Hstored & H).
  apply bind_Ok in H. destruct H as (start & Hstart & H).
  apply bind_Ok in H. destruct H as (names & Hnames & H).
  inversion H; subst k0; clear H.
  exists sid, info, stored, start, names.
  unfold dict_getitem in Hstored.
  destruct (dict_get "session_datetime" info) as [v |] eqn:Hv; [| discriminate Hstored].
  inversion Hstored; subst v.
  repeat split; auto.
Qed.

Lemma session_metadata_unresolved (w : World) (key : dict) (n : nat) :
  dj.len (dj.restrict (Session w) key) <> 1%nat ->
  session_metadata w key n
  = (Raise (DataJointError
       ("fetch1 should only return one tuple. "
        ++ nat_str (dj.len (dj.restrict (Session w) key)) ++ " tuples found")), n).
Proof.
  intros H. unfold session_metadata, mbind, lift.
  rewrite (fetch1_KEY_not_one _ H). reflexivity.
Qed.

Lemma container_object_id_run (w : World) (n : nat) :
  container_object_id w n = (Ok tt, S n).
Proof. reflexivity. Qed.

Lemma Subject_new_run (w : World) (s : string) (n : nat) :
  Subject_new w s n = (Ok (pynwb.Subject_of_id s), S n).
Proof. reflexivity. Qed.

Lemma NWBFile_new_run (w : World) (kw : kwargs) (n : nat) :
  NWBFile_new w kw n = (NWBFile_init kw, S n).
Proof. reflexivity. Qed.

Lemma global_Ok (name : string) (bound : bool) (u : unit) :
  global name bound = Ok u -> bound = true.
Proof. destruct bound; [reflexivity | discriminate]. Qed.

(** What a successful [session_to_nwb] went through: one draw for the
    identifier, one for the subject, one for the file. *)
Lemma session_to_nwb_Ok (w : World) (key : dict) (sid : option string)
      (n n' : nat) (art : pynwb.NWBFile) :
  run (session_to_nwb w key sid) n = (Ok art, n') ->
  exists k kw,
    session_metadata w key n = (Ok (k, kw), S n)
    /\ n' = (n + 3)%nat
    /\ ((HAVE_ELEMENT_ANIMAL w && subject_schema_is_activated w = true
         /\ subject_bound (module_globals w) = true
         /\ exists subj kw',
             subject_to_nwb w (dj.restrict (subject_Subject w) k) = Ok subj
             /\ lab_metadata w k (update_subject kw subj) = Ok kw'
             /\ NWBFile_init kw' = Ok art)
        \/ (HAVE_ELEMENT_ANIMAL w && subject_schema_is_activated w = false
            /\ exists s, sid = Some s
               /\ NWBFile_init (update_subject kw (pynwb.Subject_of_id s)) = Ok art)).
Proof.
  unfold run, session_to_nwb. intros H.
  apply mbind_Ok in H. destruct H as ([k kw] & n1 & Hm & H).
  assert (Hn1 : n1 = S n).
  { pose proof Hm as Hm'. apply session_metadata_Ok in Hm'.
    destruct Hm' as (? & ? & ? & ? & ? & _ & _ & _ & _ & _ & _ & Hn & _).
    exact Hn. }
  subst n1. exists k, kw. split; [exact Hm |]. simpl in H.
  destruct (HAVE_ELEMENT_ANIMAL w && subject_schema_is_activated w).
  - apply mbind_Ok in H. destruct H as (u & n2 & Hg & H).
    apply lift_Ok in Hg. destruct Hg as [Hg ->]. apply global_Ok in Hg.
    apply mbind_Ok in H. destruct H as (subj & n3 & Hs & H).
    unfold call_subject_to_nwb in Hs.
    destruct (subject_to_nwb w (dj.restrict (subject_Subject w) k))
      as [subj' | e] eqn:Hprov; [| discriminate Hs].
    inversion Hs; subst subj' n3; clear Hs.
    apply mbind_Ok in H. destruct H as (kw' & n4 & Hl & H).
    apply lift_Ok in Hl. destruct Hl as [Hl ->].
    rewrite NWBFile_new_run in H. inversion H as [[Hinit Hn]].
    split; [lia |]. left. split; [reflexivity |]. split; [exact Hg |].
    exists subj, kw'. auto.
  - destruct sid as [s |]; [| discriminate H].
    apply mbind_Ok in H. destruct H as (subj & n2 & Hs & H).
    rewrite Subject_new_run in Hs. inversion Hs; subst subj n2; clear Hs.
    rewrite NWBFile_new_run in H. inversion H as [[Hinit Hn]].
    split; [lia |]. right. split; [reflexivity |].
    exists s. auto.
Qed.

(** ** Resolving the session key *)

(** C1. A session key that matches no stored session record, or more than
    one, makes [session_to_nwb] fail with the store's "exactly one tuple"
    error (before anything else is done: no random draw is consumed); a key
    that matches exactly one record passes the lookup, and the call can
    only return an artifact for such a key. *)
Theorem session_key_must_resolve_to_one_record
        (w : World) (key : dict) (sid : option string) (n : nat) :
  (dj.len (dj.restrict (Session w) key) <> 1%nat ->
   run (session_to_nwb w key sid) n
   = (Raise (DataJointError
        ("fetch1 should only return one tuple. "
         ++ nat_str (dj.len (dj.restrict (Session w) key)) ++ " tuples found")), n))
  /\ (dj.len (dj.restrict (Session w) key) = 1%nat ->
      exists r, dj.rows (dj.restrict (Session w) key) = [r]
        /\ dj.fetch1_KEY (dj.restrict (Session w) key)
           = Ok (dj.project (dj.primary_key (Session w)) r))
  /\ (forall art n', run (session_to_nwb w key sid) n = (Ok art, n') ->
      dj.len (dj.restrict (Session w) key) = 1%nat).
Proof.
  split; [| split].
  - intros H. unfold run, session_to_nwb, mbind.
    rewrite (session_metadata_unresolved w key n H). reflexivity.
  - unfold dj.len, dj.fetch1_KEY. intros H.
    destruct (dj.rows (dj.restrict (Session w) key)) as [| r [| r' rest]];
      try discriminate H.
    exists r. split; reflexivity.
  - intros art n' H.
    apply session_to_nwb_Ok in H. destruct H as (k & kw & Hm & _).
    apply session_metadata_Ok in Hm.
    destruct Hm as (? & ? & ? & ? & ? & Hk & _).
    apply fetch1_KEY_Ok in Hk. destruct Hk as (r & Hr & _).
    unfold dj.len. rewrite Hr. reflexivity.
Qed.

Lemma session_key_must_resolve_to_one_record_witness :
  run (session_to_nwb (Demo.world false false [] "") Demo.key6 (Some "s6")) 0
  = (Raise (DataJointError "fetch1 should only return one tuple. 2 tuples found"), 0%nat)
  /\ dj.len (dj.restrict Demo.session_table Demo.key5) = 1%nat.
Proof.
  split.
  - apply (proj1 (session_key_must_resolve_to_one_record
                    (Demo.world false false [] "") Demo.key6 (Some "s6") 0)).
    vm_compute. discriminate.
  - apply (proj2 (proj2 (session_key_must_resolve_to_one_record
                    (Demo.world false false [] "") Demo.key5 (Some "s5") 0))
             (Demo.artifact5 "s5" 0) 3%nat).
    vm_compute. reflexivity.
Defined.

(** ** The lab provider's part *)

Lemma except_DataJointError_Ok {A : Type} (bound : bool) (m : result A)
      (msg : string) (a : A) :
  except_DataJointError bound m msg = Ok a -> m = Ok a.
Proof.
  destruct m as [x | e]; simpl; intros H; [exact H |].
  destruct bound; [destruct e |]; discriminate H.
Qed.

(** Inverts the binds of a hypothesis [H : ... = Ok _] one after another. *)
Ltac invert_binds H :=
  repeat (let x := fresh "x" in
          let Hx := fresh "Hx" in
          apply bind_Ok in H; destruct H as (x & Hx & H)).

(** Whatever [lab_metadata] returns differs from what it was given in the
    institution and lab name at most. *)
Lemma lab_metadata_Ok (w : World) (k : dict) (kw kw' : kwargs) :
  lab_metadata w k kw = Ok kw' ->
  kw' = kw \/ exists i l, kw' = update_institution_lab kw i l.
Proof.
  unfold lab_metadata. cbv zeta. intros H.
  destruct (HAVE_ELEMENT_LAB w && lab_schema_is_activated w);
    [| inversion H; left; reflexivity].
  apply bind_Ok in H. destruct H as (u1 & _ & H).
  apply bind_Ok in H. destruct H as (u2 & _ & H).
  destruct (dj.truthy (lab_query w k)); [| inversion H; left; reflexivity].
  apply except_DataJointError_Ok in H.
  apply bind_Ok in H. destruct H as (rec & _ & H).
  apply bind_Ok in H. destruct H as (is_utc & _ & H).
  right.
  exists (dict_get_default "institution" VNone rec),
         (dict_get_default "lab_name" VNone rec).
  destruct is_utc.
  - invert_binds H. inversion H. reflexivity.
  - inversion H. reflexivity.
Qed.

Lemma lab_metadata_keeps_start_time (w : World) (k : dict) (kw kw' : kwargs) :
  lab_metadata w k kw = Ok kw' ->
  kw_session_start_time kw' = kw_session_start_time kw
  /\ kw_subject kw' = kw_subject kw
  /\ kw_session_id kw' = kw_session_id kw
  /\ kw_identifier kw' = kw_identifier kw
  /\ kw_session_description kw' = kw_session_description kw
  /\ kw_experimenter kw' = kw_experimenter kw.
Proof.
  intros H. apply lab_metadata_Ok in H.
  destruct H as [-> | (i & l & ->)]; repeat split; reflexivity.
Qed.

Lemma NWBFile_init_Ok (kw : kwargs) (art : pynwb.NWBFile) :
  NWBFile_init kw = Ok art ->
  kw_session_description kw = Some (VStr (pynwb.session_description art))
  /\ kw_identifier kw = Some (pynwb.identifier art)
  /\ kw_session_start_time kw = Some (pynwb.session_start_time art)
  /\ pynwb.session_id art = kw_session_id kw
  /\ pynwb.experimenter art
     = match kw_experimenter kw with Some e => e | None => None end
  /\ pynwb.subject art = kw_subject kw.
Proof.
  unfold NWBFile_init. intros H.
  apply bind_Ok in H. destruct H as (description & Hd & H).
  apply bind_Ok in H. destruct H as (ident & Hi & H).
  apply bind_Ok in H. destruct H as (start & Hs & H).
  apply bind_Ok in H. destruct H as (inst & _ & H).
  apply bind_Ok in H. destruct H as (lab & _ & H).
  inversion H; subst art; simpl; clear H.
  unfold required_str in Hd, Hi.
  destruct (kw_session_description kw) as [[] |]; try discriminate Hd.
  destruct (kw_identifier kw) as [i |]; try discriminate Hi. simpl in Hi.
  destruct (kw_session_start_time kw) as [d |]; try discriminate Hs.
  inversion Hd. inversion Hi. inversion Hs. subst.
  repeat split; reflexivity.
Qed.

(** The artifact's fields that come from [session_metadata] alone,
    whichever branch built the artifact. *)
Lemma session_to_nwb_session_fields (w : World) (key : dict) (sid : option string)
      (n n' : nat) (art : pynwb.NWBFile) :
  run (session_to_nwb w key sid) n = (Ok art, n') ->
  exists k kw,
    session_metadata w key n = (Ok (k, kw), S n)
    /\ kw_session_description kw = Some (VStr (pynwb.session_description art))
    /\ kw_identifier kw = Some (pynwb.identifier art)
    /\ kw_session_start_time kw = Some (pynwb.session_start_time art)
    /\ pynwb.session_id art = kw_session_id kw
    /\ pynwb.experimenter art
       = match kw_experimenter kw with Some e => e | None => None end.
Proof.
  intros H. apply session_to_nwb_Ok in H.
  destruct H as (k & kw & Hm & _ & Hbranch). exists k, kw. split; [exact Hm |].
  destruct Hbranch as [(_ & _ & subj & kw' & _ & Hlab & Hinit)
                      | (_ & s & _ & Hinit)].
  - apply lab_metadata_keeps_start_time in Hlab.
    destruct Hlab as (Hst & _ & Hid & Hident & Hdesc & Hexp).
    apply NWBFile_init_Ok in Hinit.
    destruct Hinit as (Hd & Hi & Hs & Hsid & He & _).
    rewrite Hst in Hs. rewrite Hid in Hsid. rewrite Hident in Hi.
    rewrite Hdesc in Hd. rewrite Hexp in He.
    simpl in *. repeat split; assumption.
  - apply NWBFile_init_Ok in Hinit.
    destruct Hinit as (Hd & Hi & Hs & Hsid & He & _).
    simpl in *. repeat split; assumption.
Qed.

(** ** The start time *)

Lemma datetime_eqb_refl (d : datetime) : datetime_eqb d d = true.
Proof.
  unfold datetime_eqb, timezone_eqb. rewrite !Z.eqb_refl. simpl.
  destruct (tzinfo d); [apply Z.eqb_refl | reflexivity].
Qed.

Lemma sql_eqb_refl (v : Value) : v <> VNone -> sql_eqb v v = true.
Proof.
  destruct v; simpl; intros H.
  - apply String.eqb_refl.
  - apply Z.eqb_refl.
  - apply datetime_eqb_refl.
  - contradiction H; reflexivity.
Qed.

Lemma in_project (names : list string) (r : dict) (a : string) (v : Value) :
  In (a, v) (dj.project names r) -> In a names /\ dict_get a r = Some v.
Proof.
  unfold dj.project. rewrite in_flat_map. intros (a0 & Ha0 & Hin).
  destruct (dict_get a0 r) as [v0 |] eqn:Hget; simpl in Hin.
  - destruct Hin as [Heq | []]. inversion Heq; subst. split; assumption.
  - contradiction.
Qed.

(** A stored row satisfies its own primary key used as a condition. *)
Lemma row_matches_own_key (t : dj.Table) (r : dict) :
  dj.key_not_null t r = true ->
  dj.row_matches (dj.heading t) (dj.project (dj.primary_key t) r) r = true.
Proof.
  intros Hnn. unfold dj.row_matches. apply forallb_forall.
  intros [a v] Hin. simpl.
  apply in_project in Hin. destruct Hin as [Ha Hget].
  destruct (dj.in_names a (dj.heading t)); [| reflexivity].
  rewrite Hget. apply sql_eqb_refl.
  unfold dj.key_not_null in Hnn. rewrite forallb_forall in Hnn.
  specialize (Hnn a Ha). rewrite Hget in Hnn.
  intros ->. discriminate Hnn.
Qed.

Lemma flat_map_singleton {A B : Type} (f : A -> list B) (l : list A) (x : A) (y : B) :
  (forall a, f a <> []) -> In x l -> flat_map f l = [y] -> l = [x] /\ f x = [y].
Proof.
  intros Hne Hin H.
  destruct l as [| a l']; [contradiction Hin |]. simpl in H.
  assert (Hl' : l' = []).
  { destruct l' as [| b l'']; [reflexivity |]. exfalso.
    simpl in H.
    destruct (f a) as [| y1 fa] eqn:Hfa; [exact (Hne a Hfa) |].
    destruct (f b) as [| y2 fb] eqn:Hfb; [exact (Hne b Hfb) |].
    simpl in H. inversion H as [[Hy Hrest]].
    destruct fa; discriminate Hrest. }
  subst l'. simpl in H. rewrite app_nil_r in H.
  destruct Hin as [-> | []]. split; [reflexivity | exact H].
Qed.

Lemma dict_get_app (a : string) (r extra : dict) (v : Value) :
  dict_get a r = Some v -> dict_get a (r ++ extra)%list = Some v.
Proof.
  induction r as [| [a' v'] r IH]; simpl; intros H; [discriminate H |].
  destruct (String.eqb a a'); [exact H | apply IH; exact H].
Qed.

(** The record fetched through the left join with the notes is the only
    stored session record, extended by the note table's attributes. *)
Lemma session_info_extends_record (w : World) (key : dict) (r info : dict) :
  dj.rows (dj.restrict (Session w) key) = [r] ->
  dj.key_not_null (Session w) r = true ->
  dj.fetch1 (dj.join_left
               (dj.restrict (Session w) (dj.project (dj.primary_key (Session w)) r))
               (SessionNote w)) = Ok info ->
  exists extra, info = (r ++ extra)%list.
Proof.
  intros Hr Hnn Hinfo.
  assert (Hin : In r (dj.rows (dj.restrict (Session w)
                                 (dj.project (dj.primary_key (Session w)) r)))).
  { simpl. apply filter_In. split.
    - assert (H : In r (dj.rows (dj.restrict (Session w) key)))
        by (rewrite Hr; left; reflexivity).
      simpl in H. apply filter_In in H. exact (proj1 H).
    - apply row_matches_own_key. exact Hnn. }
  unfold dj.fetch1 in Hinfo.
  destruct (dj.rows (dj.join_left _ _)) as [| i [| i' rest]] eqn:Hrows;
    try discriminate Hinfo.
  inversion Hinfo; subst i; clear Hinfo.
  simpl in Hrows.
  eapply flat_map_singleton in Hrows; [| | exact Hin].
  - destruct Hrows as [_ Hf].
    destruct (filter _ (dj.rows (SessionNote w))) as [| p ps].
    + inversion Hf. eexists. reflexivity.
    + simpl in Hf. inversion Hf. eexists. reflexivity.
  - intros a. destruct (filter _ (dj.rows (SessionNote w))); simpl; discriminate.
Qed.

(** C5. For a session key that matches exactly one stored record, the
    artifact that [session_to_nwb] returns has as [session_start_time] the
    record's stored [session_datetime] converted to UTC with
    [astimezone(timezone.utc)]: it carries the UTC timezone and denotes the
    instant that the stored timestamp denotes.  (The store never holds NULL
    in a primary-key attribute.) *)
Theorem start_time_is_stored_timestamp_in_utc
        (w : World) (key : dict) (sid : option string) (n n' : nat)
        (art : pynwb.NWBFile) (r : dict) (stored : Value) :
  dj.rows (dj.restrict (Session w) key) = [r] ->
  dj.key_not_null (Session w) r = true ->
  dict_get "session_datetime" r = Some stored ->
  run (session_to_nwb w key sid) n = (Ok art, n') ->
  exists d,
    stored = VDatetime d
    /\ astimezone (local_utcoffset w) d timezone_utc
       = Ok (pynwb.session_start_time art)
    /\ tzinfo (pynwb.session_start_time art) = Some timezone_utc
    /\ instant (local_utcoffset w) (pynwb.session_start_time art)
       = instant (local_utcoffset w) d.
Proof.
  intros Hr Hnn Hstored Hrun.
  apply session_to_nwb_session_fields in Hrun.
  destruct Hrun as (k & kw & Hm & _ & _ & Hstart & _).
  apply session_metadata_Ok in Hm.
  destruct Hm as (sid' & info & stored' & start & names
                  & Hk & _ & Hinfo & Hget & Hconv & _ & _ & Hkw).
  apply fetch1_KEY_Ok in Hk. destruct Hk as (r' & Hr' & Hk).
  rewrite Hr in Hr'. inversion Hr'; subst r'; clear Hr'. simpl in Hk. subst k.
  destruct (session_info_extends_record w key r info Hr Hnn Hinfo) as (extra & ->).
  rewrite (dict_get_app _ _ extra _ Hstored) in Hget.
  inversion Hget; subst stored'; clear Hget.
  subst kw. simpl in Hstart. inversion Hstart; subst start; clear Hstart.
  unfold value_astimezone in Hconv.
  destruct stored as [| | d |]; try discriminate Hconv.
  exists d. split; [reflexivity |]. split; [exact Hconv |].
  destruct (astimezone_same_instant _ _ _ _ Hconv) as [Hinst Htz].
  split; assumption.
Qed.

Lemma start_time_is_stored_timestamp_in_utc_witness :
  exists d,
    VDatetime Demo.stamp5 = VDatetime d
    /\ astimezone (fun _ => 2 * 3600 * US_PER_SECOND) d timezone_utc = Ok Demo.start5
    /\ tzinfo Demo.start5 = Some timezone_utc
    /\ instant (fun _ => 2 * 3600 * US_PER_SECOND) Demo.start5
       = instant (fun _ => 2 * 3600 * US_PER_SECOND) d.
Proof.
  apply (start_time_is_stored_timestamp_in_utc
           (Demo.world false false [] "") Demo.key5 (Some "s5") 0 3
           (Demo.artifact5 "s5" 0) Demo.key5 (VDatetime Demo.stamp5));
    vm_compute; reflexivity.
Defined.

(** ** The subject sub-record *)

(** C3. Without an active subject provider: a call that supplies no
    [subject_id] never returns an artifact, and once the session's own
    metadata has been gathered it fails with the missing-[subject_id]
    [ValueError]; a call that supplies one and returns, returns an artifact
    whose subject sub-record is built from that identifier alone. *)
Theorem subject_id_required_without_provider
        (w : World) (key : dict) (n : nat) :
  HAVE_ELEMENT_ANIMAL w && subject_schema_is_activated w = false ->
  (forall art n', run (session_to_nwb w key None) n <> (Ok art, n'))
  /\ (forall k kw n',
        session_metadata w key n = (Ok (k, kw), n') ->
        run (session_to_nwb w key None) n
        = (Raise (ValueError MISSING_SUBJECT_ID), n'))
  /\ (forall s art n',
        run (session_to_nwb w key (Some s)) n = (Ok art, n') ->
        pynwb.subject art = Some (pynwb.Subject_of_id s)
        /\ option_map pynwb.subject_id (pynwb.subject art) = Some (Some s)).
Proof.
  intros Hoff. split; [| split].
  - intros art n' H. apply session_to_nwb_Ok in H.
    destruct H as (k & kw & _ & _ & [(Hon & _) | (_ & s & Hs & _)]).
    + rewrite Hoff in Hon. discriminate Hon.
    + discriminate Hs.
  - intros k kw n' Hm. unfold run, session_to_nwb, mbind.
    rewrite Hm. simpl. rewrite Hoff. reflexivity.
  - intros s art n' H. apply session_to_nwb_Ok in H.
    destruct H as (k & kw & _ & _ & [(Hon & _) | (_ & s' & Hs & Hinit)]).
    + rewrite Hoff in Hon. discriminate Hon.
    + inversion Hs; subst s'. apply NWBFile_init_Ok in Hinit.
      destruct Hinit as (_ & _ & _ & _ & _ & Hsubj). simpl in Hsubj.
      rewrite Hsubj. split; reflexivity.
Qed.

Lemma subject_id_required_without_provider_witness :
  run (session_to_nwb (Demo.world false true ["alpha"] "UTC-5") Demo.key5 None) 7
  = (Raise (ValueError MISSING_SUBJECT_ID), 8%nat)
  /\ option_map pynwb.subject_id (pynwb.subject (Demo.artifact5 "mouse-1" 7))
     = Some (Some "mouse-1").
Proof.
  pose proof (subject_id_required_without_provider
                (Demo.world false true ["alpha"] "UTC-5") Demo.key5 7 eq_refl)
    as (_ & Hnone & Hsome).
  split.
  - eapply Hnone. vm_compute. reflexivity.
  - apply (Hsome "mouse-1" (Demo.artifact5 "mouse-1" 7) 10%nat).
    vm_compute. reflexivity.
Defined.

(** C9. With the subject provider available and its schema activated, the
    [subject_id] argument is not consulted: two calls that differ in it
    only (same key, same store, same state of the random source) have the
    same outcome. *)
Theorem subject_id_ignored_with_provider
        (w : World) (key : dict) (sid1 sid2 : option string) (n : nat) :
  HAVE_ELEMENT_ANIMAL w && subject_schema_is_activated w = true ->
  run (session_to_nwb w key sid1) n = run (session_to_nwb w key sid2) n.
Proof.
  intros Hon. unfold run, session_to_nwb.
  apply mbind_ext. intros resolved n1. cbv zeta. rewrite Hon. reflexivity.
Qed.

Lemma subject_id_ignored_with_provider_witness :
  run (session_to_nwb (Demo.world true true ["alpha"] "EST") Demo.key5 (Some "x")) 2
  = run (session_to_nwb (Demo.world true true ["alpha"] "EST") Demo.key5 None) 2
  /\ run (session_to_nwb (Demo.world true true ["alpha"] "EST") Demo.key5 None) 2
     = (Ok (Demo.artifact5_lab 2), 5%nat).
Proof.
  split.
  - apply (subject_id_ignored_with_provider
             (Demo.world true true ["alpha"] "EST") Demo.key5 (Some "x") None 2).
    reflexivity.
  - vm_compute. reflexivity.
Defined.

(** ** Lab metadata *)

Lemma fetch1_many (t : dj.Table) :
  (1 < dj.len t)%nat ->
  dj.fetch1 t = Raise (DataJointError "fetch1 requires exactly one tuple in the input set.").
Proof.
  unfold dj.fetch1, dj.len.
  destruct (dj.rows t) as [| r [| r' rest]]; simpl; intros H;
    [lia | lia | reflexivity].
Qed.

(** The outcome in the provider branch once the session's metadata is
    gathered, the name [subject] found and the subject translated. *)
Lemma run_provider_branch (w : World) (key : dict) (sid : option string) (n n' : nat)
      (k : dict) (kw : kwargs) (subj : pynwb.Subject) :
  HAVE_ELEMENT_ANIMAL w && subject_schema_is_activated w = true ->
  session_metadata w key n = (Ok (k, kw), n') ->
  subject_bound (module_globals w) = true ->
  subject_to_nwb w (dj.restrict (subject_Subject w) k) = Ok subj ->
  run (session_to_nwb w key sid) n
  = match lab_metadata w k (update_subject kw subj) with
    | Ok kw' => (NWBFile_init kw', S (S n'))
    | Raise e => (Raise e, S n')
    end.
Proof.
  intros Hon Hm Hbound Hsubj. unfold run, session_to_nwb. unfold mbind at 1.
  rewrite Hm. cbn [fst snd]. rewrite Hon, Hbound.
  unfold mbind at 1. unfold lift at 1. cbn [global].
  unfold mbind at 1. unfold call_subject_to_nwb. rewrite Hsubj.
  unfold mbind at 1. rewrite container_object_id_run. unfold lift at 1.
  unfold mbind at 1. unfold lift at 1.
  destruct (lab_metadata w k (update_subject kw subj)); reflexivity.
Qed.

(** The outcome in the provider branch of the module as shipped: the name
    [subject] on line 84 is not bound. *)
Lemma run_provider_branch_unbound (w : World) (key : dict) (sid : option string)
      (n n' : nat) (k : dict) (kw : kwargs) :
  HAVE_ELEMENT_ANIMAL w && subject_schema_is_activated w = true ->
  session_metadata w key n = (Ok (k, kw), n') ->
  subject_bound (module_globals w) = false ->
  run (session_to_nwb w key sid) n
  = (Raise (NameError "name 'subject' is not defined"), n').
Proof.
  intros Hon Hm Hunbound. unfold run, session_to_nwb. unfold mbind at 1.
  rewrite Hm. cbn [fst snd]. rewrite Hon, Hunbound. reflexivity.
Qed.

(** What the lab part does, the names it needs being bound, when the lab
    query has more than one record. *)
Lemma lab_metadata_ambiguous (w : World) (k : dict) (kw : kwargs) :
  HAVE_ELEMENT_LAB w && lab_schema_is_activated w = true ->
  lab_bound (module_globals w) = true ->
  subject_bound (module_globals w) = true ->
  DataJointError_bound (module_globals w) = true ->
  (1 < dj.len (lab_query w k))%nat ->
  lab_metadata w k kw = Raise (DataJointError MULTIPLE_LABS).
Proof.
  intros Hlab Hl Hs Hd Hmany. unfold lab_metadata. cbv zeta.
  rewrite Hlab, Hl, Hs, Hd. cbn [global bind].
  assert (Ht : dj.truthy (lab_query w k) = true).
  { unfold dj.truthy. destruct (dj.len (lab_query w k)); [lia | reflexivity]. }
  rewrite Ht, (fetch1_many _ Hmany). reflexivity.
Qed.

(** C4. With both providers active and two records in the lab query, the
    module as shipped does not get to the lab query: the name [subject] on
    line 84 is not bound, and the call raises [NameError] instead of the
    "Multiple labs" error.  (With the five names set on the module, the
    same call does raise the "Multiple labs" error.) *)
Theorem ambiguous_lab_raises_NameError :
  dj.len (lab_query (Demo.world true true ["alpha"; "beta"] "UTC-5") Demo.key5) = 2%nat
  /\ run (session_to_nwb (shipped (Demo.world true true ["alpha"; "beta"] "UTC-5"))
            Demo.key5 None) 0
     = (Raise (NameError "name 'subject' is not defined"), 1%nat)
  /\ run (session_to_nwb (Demo.world true true ["alpha"; "beta"] "UTC-5")
            Demo.key5 None) 0
     = (Raise (DataJointError MULTIPLE_LABS), 2%nat).
Proof. vm_compute. repeat split; reflexivity. Qed.

Lemma py_int_raises (s : string) (e : exn) :
  py_int s = Raise e -> exists msg, e = ValueError msg.
Proof.
  unfold py_int.
  destruct (match lstrip (to_ascii_form s) with
            | String "+" rest => (false, rest)
            | String "-" rest => (true, rest)
            | _ => (false, lstrip (to_ascii_form s))
            end) as [negative digits].
  destruct (scan_digits 0 0 false digits) as [[[value count] rest] |].
  - destruct count as [| count].
    + intros H. inversion H. eexists. reflexivity.
    + destruct (MAX_STR_DIGITS <? S count)%nat.
      * intros H. inversion H. eexists. reflexivity.
      * destruct (lstrip rest); intros H; [discriminate H |].
        inversion H. eexists. reflexivity.
  - intros H. inversion H. eexists. reflexivity.
Qed.

(** What the lab part does for the only lab record when its [time_zone]
    starts with "UTC" and [int] refuses the remainder. *)
Lemma lab_metadata_unparseable (w : World) (k : dict) (kw : kwargs)
      (rec : dict) (tzs : string) (e : exn) :
  HAVE_ELEMENT_LAB w && lab_schema_is_activated w = true ->
  dj.rows (lab_query w k) = [rec] ->
  dict_get "time_zone" rec = Some (VStr tzs) ->
  take 3 tzs = "UTC" ->
  py_int (drop 3 tzs) = Raise e ->
  lab_metadata w k kw
  = Raise (if lab_bound (module_globals w)
           then if subject_bound (module_globals w)
                then if DataJointError_bound (module_globals w)
                     then e
                     else NameError "name 'DataJointError' is not defined"
                else NameError "name 'subject' is not defined"
           else NameError "name 'lab' is not defined").
Proof.
  intros Hlab Hrec Htz Hprefix Hint.
  destruct (py_int_raises _ _ Hint) as (msg & ->).
  unfold lab_metadata. cbv zeta. rewrite Hlab.
  destruct (lab_bound (module_globals w)); [| reflexivity].
  destruct (subject_bound (module_globals w)); [| reflexivity].
  cbn [global bind].
  unfold dj.truthy, dj.len, dj.fetch1. rewrite Hrec.
  cbn [List.length Nat.eqb negb bind].
  unfold dict_contains, dict_getitem. rewrite Htz.
  cbn [bind slice_to slice_from]. rewrite Hprefix.
  cbn [String.eqb Ascii.eqb Bool.eqb bind].
  rewrite Hint. cbn [bind except_DataJointError].
  destruct (DataJointError_bound (module_globals w)); reflexivity.
Qed.

(** C10. With both providers active and exactly one lab record whose
    [time_zone] starts with the three characters "UTC", nothing else is
    checked before the remainder goes to [int()]; when [int()] refuses it,
    the call raises and returns no artifact.  As the module is shipped the
    exception is the [NameError] of line 84, which comes first; with the
    names [subject] and [lab] bound it is [int]'s [ValueError], which the
    [except] clause lets through (or the [NameError] of that clause). *)
Theorem unparseable_utc_offset_raises
        (w : World) (key : dict) (sid : option string) (n n' : nat)
        (k : dict) (kw : kwargs) (rec : dict) (tzs : string) (e : exn) :
  HAVE_ELEMENT_ANIMAL w && subject_schema_is_activated w = true ->
  session_metadata w key n = (Ok (k, kw), n') ->
  HAVE_ELEMENT_LAB w && lab_schema_is_activated w = true ->
  dj.rows (lab_query w k) = [rec] ->
  dict_get "time_zone" rec = Some (VStr tzs) ->
  take 3 tzs = "UTC" ->
  py_int (drop 3 tzs) = Raise e ->
  (forall art m, run (session_to_nwb w key sid) n <> (Ok art, m))
  /\ (subject_bound (module_globals w) = false ->
      run (session_to_nwb w key sid) n
      = (Raise (NameError "name 'subject' is not defined"), n'))
  /\ (forall subj,
        subject_bound (module_globals w) = true ->
        lab_bound (module_globals w) = true ->
        subject_to_nwb w (dj.restrict (subject_Subject w) k) = Ok subj ->
        run (session_to_nwb w key sid) n
        = (Raise (if DataJointError_bound (module_globals w)
                  then e
                  else NameError "name 'DataJointError' is not defined"), S n')).
Proof.
  intros Hon Hm Hlab Hrec Htz Hprefix Hint.
  split; [| split].
  - intros art m H. apply session_to_nwb_Ok in H.
    destruct H as (k' & kw0 & Hm' & _ & [(_ & _ & subj & kw' & _ & Hl & _)
                                        | (Hoff & _)]);
      [| rewrite Hon in Hoff; discriminate Hoff].
    rewrite Hm in Hm'. inversion Hm'; subst k' kw0.
    rewrite (lab_metadata_unparseable w k _ rec tzs e Hlab Hrec Htz Hprefix Hint)
      in Hl.
    discriminate Hl.
  - intros Hunbound.
    exact (run_provider_branch_unbound w key sid n n' k kw Hon Hm Hunbound).
  - intros subj Hs Hl Hsubj.
    rewrite (run_provider_branch w key sid n n' k kw subj Hon Hm Hs Hsubj).
    rewrite (lab_metadata_unparseable w k _ rec tzs e Hlab Hrec Htz Hprefix Hint).
    rewrite Hl, Hs. reflexivity.
Qed.

Lemma unparseable_utc_offset_raises_witness :
  run (session_to_nwb (shipped (Demo.world true true ["alpha"] "UTC+05:30"))
         Demo.key5 None) 0
  = (Raise (NameError "name 'subject' is not defined"), 1%nat)
  /\ run (session_to_nwb (Demo.world true true ["alpha"] "UTC+05:30") Demo.key5 None) 0
     = (Raise (ValueError "invalid literal for int() with base 10: '+05:30'"), 2%nat)
  /\ run (session_to_nwb (Demo.world true true ["alpha"] "UTCX") Demo.key5 None) 0
     = (Raise (ValueError "invalid literal for int() with base 10: 'X'"), 2%nat).
Proof.
  split; [| split].
  - eapply (proj1 (proj2 (unparseable_utc_offset_raises
              (shipped (Demo.world true true ["alpha"] "UTC+05:30")) Demo.key5 None 0 1
              _ _ (Demo.lab_row "alpha" "UTC+05:30") "UTC+05:30" _
              eq_refl eq_refl eq_refl eq_refl eq_refl eq_refl eq_refl))).
    reflexivity.
  - eapply (proj2 (proj2 (unparseable_utc_offset_raises
              (Demo.world true true ["alpha"] "UTC+05:30") Demo.key5 None 0 1
              _ _ (Demo.lab_row "alpha" "UTC+05:30") "UTC+05:30" _
              eq_refl eq_refl eq_refl eq_refl eq_refl eq_refl eq_refl)));
      reflexivity.
  - eapply (proj2 (proj2 (unparseable_utc_offset_raises
              (Demo.world true true ["alpha"] "UTCX") Demo.key5 None 0 1
              _ _ (Demo.lab_row "alpha" "UTCX") "UTCX" _
              eq_refl eq_refl eq_refl eq_refl eq_refl eq_refl eq_refl)));
      reflexivity.
Defined.

(** ** Experimenters *)

(** C6. The artifact's [experimenter] is the column of experimenter names of
    the resolved session, in the order in which the store fetches them, when
    there is at least one; it is [None], and never an empty list, when
    there is none. *)
Theorem experimenter_keeps_fetch_order
        (w : World) (key : dict) (sid : option string) (n n' : nat)
        (art : pynwb.NWBFile) :
  run (session_to_nwb w key sid) n = (Ok art, n') ->
  exists k names,
    dj.fetch1_KEY (dj.restrict (Session w) key) = Ok k
    /\ names = map (dict_get_default "experimenter" VNone)
                   (dj.rows (dj.restrict (SessionExperimenter w) k))
    /\ (names <> [] -> pynwb.experimenter art = Some names)
    /\ (names = [] -> pynwb.experimenter art = None)
    /\ pynwb.experimenter art <> Some [].
Proof.
  intros Hrun.
  apply session_to_nwb_session_fields in Hrun.
  destruct Hrun as (k & kw & Hm & _ & _ & _ & _ & Hexp).
  apply session_metadata_Ok in Hm.
  destruct Hm as (sid' & info & stored & start & names
                  & Hk & _ & _ & _ & _ & Hnames & _ & Hkw).
  exists k, names. split; [exact Hk |].
  unfold dj.fetch in Hnames.
  destruct (dj.in_names _ _); [| discriminate Hnames].
  inversion Hnames as [Heq]. split; [reflexivity |].
  rewrite Heq. subst kw. simpl in Hexp. rewrite Hexp.
  destruct names as [| x xs].
  - repeat split; [intros H; contradiction H; reflexivity | discriminate].
  - repeat split; [intros H; discriminate H | discriminate].
Qed.

Lemma experimenter_keeps_fetch_order_witness :
  exists k names,
    dj.fetch1_KEY (dj.restrict Demo.session_table Demo.key5) = Ok k
    /\ names = map (dict_get_default "experimenter" VNone)
                   (dj.rows (dj.restrict Demo.experimenter_table k))
    /\ (names <> [] ->
        pynwb.experimenter (Demo.artifact5 "s5" 0) = Some names)
    /\ (names = [] -> pynwb.experimenter (Demo.artifact5 "s5" 0) = None)
    /\ pynwb.experimenter (Demo.artifact5 "s5" 0) <> Some [].
Proof.
  apply (experimenter_keeps_fetch_order
           (Demo.world false false [] "") Demo.key5 (Some "s5") 0 3
           (Demo.artifact5 "s5" 0)).
  vm_compute. reflexivity.
Defined.

(** ** Identifiers *)

Lemma length_append (a b : string) :
  String.length (a ++ b) = (String.length a + String.length b)%nat.
Proof. induction a as [| c a IH]; simpl; [reflexivity | rewrite IH; reflexivity]. Qed.

Lemma append_inj (a a' b b' : string) :
  String.length a = String.length a' -> (a ++ b = a' ++ b')%string ->
  a = a' /\ b = b'.
Proof.
  revert a'. induction a as [| c a IH]; intros [| c' a'] Hlen H; simpl in *;
    try discriminate Hlen.
  - split; [reflexivity | exact H].
  - inversion H as [[Hc Hrest]]. inversion Hlen as [Hlen'].
    destruct (IH a' Hlen' Hrest) as [-> ->]. split; reflexivity.
Qed.

Lemma length_hex_padded (n : nat) (z : Z) : String.length (hex_padded n z) = n.
Proof.
  revert z. induction n as [| n IH]; intros z; simpl; [reflexivity |].
  rewrite length_append, IH. simpl. lia.
Qed.

Lemma hex_char_inj (a b : Z) :
  0 <= a < 16 -> 0 <= b < 16 -> hex_char a = hex_char b -> a = b.
Proof.
  intros Ha Hb H.
  assert (Ea : a = 0 \/ a = 1 \/ a = 2 \/ a = 3 \/ a = 4 \/ a = 5 \/ a = 6 \/ a = 7
               \/ a = 8 \/ a = 9 \/ a = 10 \/ a = 11 \/ a = 12 \/ a = 13 \/ a = 14
               \/ a = 15) by lia.
  assert (Eb : b = 0 \/ b = 1 \/ b = 2 \/ b = 3 \/ b = 4 \/ b = 5 \/ b = 6 \/ b = 7
               \/ b = 8 \/ b = 9 \/ b = 10 \/ b = 11 \/ b = 12 \/ b = 13 \/ b = 14
               \/ b = 15) by lia.
  repeat (destruct Ea as [-> | Ea]); try subst a;
    repeat (destruct Eb as [-> | Eb]); try subst b;
    first [reflexivity | vm_compute in H; discriminate H].
Qed.

(** The hexadecimal text determines the low digits it was made from. *)
Lemma hex_padded_inj (n : nat) (a b : Z) :
  hex_padded n a = hex_padded n b -> a mod 2 ^ (4 * Z.of_nat n) = b mod 2 ^ (4 * Z.of_nat n).
Proof.
  revert a b. induction n as [| n IH]; intros a b H.
  - simpl. rewrite !Z.mod_1_r. reflexivity.
  - simpl in H. apply append_inj in H; [| rewrite !length_hex_padded; reflexivity].
    destruct H as [Hhi Hlo]. apply IH in Hhi.
    inversion Hlo as [Hc]. clear Hlo.
    change 15 with (Z.ones 4) in Hc. rewrite !Z.land_ones in Hc by lia.
    apply hex_char_inj in Hc; try (apply Z.mod_pos_bound; reflexivity).
    rewrite !Z.shiftr_div_pow2 in Hhi by lia.
    replace (4 * Z.of_nat (S n)) with (4 + 4 * Z.of_nat n) by lia.
    rewrite Z.pow_add_r by lia.
    rewrite !Z.rem_mul_r by lia.
    change (2 ^ 4) with 16 in *. rewrite Hc, Hhi. reflexivity.
Qed.

(** The dashes of [uuid_str] taken out again. *)
Lemma uuid_str_digits (h h' : string) :
  String.length h = 32%nat -> String.length h' = 32%nat ->
  (substring 0 8 h ++ "-" ++ substring 8 12 h ++ "-" ++ substring 12 16 h
   ++ "-" ++ substring 16 20 h ++ "-" ++ drop 20 h
   = substring 0 8 h' ++ "-" ++ substring 8 12 h' ++ "-" ++ substring 12 16 h'
   ++ "-" ++ substring 16 20 h' ++ "-" ++ drop 20 h')%string ->
  h = h'.
Proof.
  intros Hh Hh' H.
  do 32 (destruct h as [| ? h]; [discriminate Hh |]).
  destruct h; [| discriminate Hh].
  do 32 (destruct h' as [| ? h']; [discriminate Hh' |]).
  destruct h'; [| discriminate Hh'].
  cbv in H. inversion H. reflexivity.
Qed.

Lemma uuid_str_inj (i j : Z) :
  uuid_str i = uuid_str j -> i mod 2 ^ 128 = j mod 2 ^ 128.
Proof.
  unfold uuid_str. cbv zeta. intros H.
  apply uuid_str_digits in H; try apply length_hex_padded.
  apply hex_padded_inj in H. exact H.
Qed.

Lemma uuid4_int_128_bits (r : Z) : uuid4_int r mod 2 ^ 128 = uuid4_int r.
Proof.
  apply Z.bits_inj'. intros n Hn.
  destruct (Z.ltb_spec n 128) as [Hlo | Hhi].
  - apply Z.mod_pow2_bits_low. lia.
  - rewrite Z.mod_pow2_bits_high by lia.
    unfold uuid4_int. cbv zeta.
    repeat (rewrite Z.lor_spec || rewrite Z.land_spec).
    rewrite Z.ones_spec_high by lia.
    rewrite (Z.bits_above_log2 (Z.shiftl 32768 48) n), (Z.bits_above_log2 (Z.shiftl 4 76) n);
      [ rewrite !andb_false_r; reflexivity
      | vm_compute; discriminate | vm_compute Z.log2; lia
      | vm_compute; discriminate | vm_compute Z.log2; lia ].
Qed.

(** Two UUIDs with the same text are the same UUID. *)
Lemma uuid4_str_inj (r r' : Z) :
  uuid_str (uuid4_int r) = uuid_str (uuid4_int r') -> uuid4_int r = uuid4_int r'.
Proof.
  intros H. apply uuid_str_inj in H.
  rewrite !uuid4_int_128_bits in H. exact H.
Qed.

Lemma all_str_rendered (i : nat) (k : dict) (parts : list string) :
  all_str i (dict_values
    (map (fun kv : string * Value =>
            (fst kv, match snd kv with
                     | VDatetime d => VStr (isoformat d)
                     | v => v
                     end)) k)) = Ok parts ->
  Forall2 rendered (dict_values k) parts.
Proof.
  revert i parts. induction k as [| [a v] k IH]; simpl; intros i parts H.
  - inversion H. constructor.
  - destruct v as [s | z | d |]; simpl in H; try discriminate H.
    + apply bind_Ok in H. destruct H as (ss & Hss & H). inversion H.
      constructor; [left; reflexivity | apply (IH (S i)); exact Hss].
    + apply bind_Ok in H. destruct H as (ss & Hss & H). inversion H.
      constructor; [right; exists d; split; reflexivity | apply (IH (S i)); exact Hss].
Qed.

(** [uuid4] leaves every random bit of the draw as it is. *)
Lemma uuid4_int_random_bit (r : Z) (i : Z) :
  0 <= i -> Z.testbit RANDOM_BITS i = true ->
  Z.testbit (uuid4_int r) i = Z.testbit r i.
Proof.
  intros Hi Hmask. unfold RANDOM_BITS, uuid4_int in *. cbv zeta.
  rewrite Z.land_spec, Z.lnot_spec, Z.lor_spec in Hmask by exact Hi.
  repeat (rewrite Z.lor_spec || rewrite Z.land_spec).
  rewrite !Z.lnot_spec by exact Hi.
  assert (H3 : Z.testbit (Z.shiftl 32768 48) i
               = Z.testbit (Z.shiftl 32768 48) i && Z.testbit (Z.shiftl 49152 48) i).
  { rewrite <- Z.land_spec. reflexivity. }
  assert (H4 : Z.testbit (Z.shiftl 4 76) i
               = Z.testbit (Z.shiftl 4 76) i && Z.testbit (Z.shiftl 61440 64) i).
  { rewrite <- Z.land_spec. reflexivity. }
  rewrite H3, H4.
  destruct (Z.testbit (Z.ones 128) i); [| discriminate Hmask].
  destruct (Z.testbit (Z.shiftl 49152 48) i); [discriminate Hmask |].
  destruct (Z.testbit (Z.shiftl 61440 64) i); [discriminate Hmask |].
  rewrite !andb_false_r, !andb_true_r, !orb_false_r. reflexivity.
Qed.

(** Two draws that make the same UUID have the same random bits. *)
Lemma uuid4_int_random_bits (r r' : Z) :
  uuid4_int r = uuid4_int r' -> random_bits r = random_bits r'.
Proof.
  intros H. unfold random_bits. apply Z.bits_inj'. intros i Hi.
  rewrite !Z.land_spec.
  destruct (Z.testbit RANDOM_BITS i) eqn:Hmask;
    [| rewrite !andb_false_r; reflexivity].
  rewrite <- (uuid4_int_random_bit r i Hi Hmask),
          <- (uuid4_int_random_bit r' i Hi Hmask), H.
  reflexivity.
Qed.

(** Draws that differ in a random bit give identifiers that differ. *)
Lemma identifiers_of_different_draws (r r' : Z) :
  random_bits r <> random_bits r' ->
  uuid_str (uuid4_int r) <> uuid_str (uuid4_int r').
Proof.
  intros Hdiff Heq. apply Hdiff. apply uuid4_int_random_bits.
  apply uuid4_str_inj. exact Heq.
Qed.

(** C8. The artifact's [session_id] is the values of the resolved session
    key, a timestamp in ISO 8601 form, joined with underscores.  Its
    [identifier] is the text of the version-4 UUID made from the 16 bytes
    that the call draws first from [os.urandom]: it carries the 122 random
    bits of that draw, so that a draw differing in one of them gives
    another identifier.  A returning call makes three draws, so the next
    call draws anew, and its identifier differs whenever its draw does. *)
Theorem session_id_and_identifier
        (w : World) (key : dict) (sid : option string) (n n' : nat)
        (art : pynwb.NWBFile) :
  run (session_to_nwb w key sid) n = (Ok art, n') ->
  exists k parts,
    dj.fetch1_KEY (dj.restrict (Session w) key) = Ok k
    /\ Forall2 rendered (dict_values k) parts
    /\ pynwb.session_id art = Some (str_join "_" parts)
    /\ pynwb.identifier art = uuid_str (uuid4_int (os_urandom w n))
    /\ n' = (n + 3)%nat
    /\ (forall m,
          random_bits (os_urandom w m) <> random_bits (os_urandom w n) ->
          uuid_str (uuid4_int (os_urandom w m)) <> pynwb.identifier art)
    /\ (forall key2 sid2 art2 n2,
          run (session_to_nwb w key2 sid2) n' = (Ok art2, n2) ->
          random_bits (os_urandom w n') <> random_bits (os_urandom w n) ->
          pynwb.identifier art2 <> pynwb.identifier art).
Proof.
  assert (Hident : forall key0 sid0 n0 n0' art0,
             run (session_to_nwb w key0 sid0) n0 = (Ok art0, n0') ->
             pynwb.identifier art0 = uuid_str (uuid4_int (os_urandom w n0))).
  { intros key0 sid0 n0 n0' art0 H.
    apply session_to_nwb_session_fields in H.
    destruct H as (k & kw & Hm & _ & Hi & _).
    apply session_metadata_Ok in Hm.
    destruct Hm as (? & ? & ? & ? & ? & _ & _ & _ & _ & _ & _ & _ & Hkw).
    subst kw. simpl in Hi. inversion Hi. reflexivity. }
  intros Hrun.
  pose proof (Hident _ _ _ _ _ Hrun) as Hid.
  pose proof Hrun as Hfields.
  apply session_to_nwb_Ok in Hrun. destruct Hrun as (_ & _ & _ & Hn' & _).
  apply session_to_nwb_session_fields in Hfields.
  destruct Hfields as (k & kw & Hm & _ & _ & _ & Hsid & _).
  apply session_metadata_Ok in Hm.
  destruct Hm as (sid' & info & stored & start & names
                  & Hk & Hjoin & _ & _ & _ & _ & _ & Hkw).
  unfold py_join in Hjoin.
  apply bind_Ok in Hjoin. destruct Hjoin as (parts & Hparts & Hjoin).
  inversion Hjoin; subst sid'; clear Hjoin.
  exists k, parts. split; [exact Hk |].
  split; [exact (all_str_rendered 0 k parts Hparts) |].
  subst kw. simpl in Hsid.
  split; [exact Hsid |]. split; [exact Hid |]. split; [exact Hn' |].
  split.
  - intros m Hdiff. rewrite Hid. apply identifiers_of_different_draws. exact Hdiff.
  - intros key2 sid2 art2 n2 Hrun2 Hdiff.
    rewrite Hid, (Hident _ _ _ _ _ Hrun2).
    apply identifiers_of_different_draws. exact Hdiff.
Qed.

Lemma session_id_and_identifier_witness :
  exists k parts,
    dj.fetch1_KEY (dj.restrict Demo.session_table Demo.key5) = Ok k
    /\ Forall2 rendered (dict_values k) parts
    /\ Some "subject5_2020-05-12T04:13:07" = Some (str_join "_" parts)
    /\ "00000000-0005-4000-8123-456789abcdef"
       = uuid_str (uuid4_int (5 * 2 ^ 80 + 81985529216486895))
    /\ 8%nat = 8%nat
    /\ (forall m : nat,
          random_bits (Z.of_nat m * 2 ^ 80 + 81985529216486895)
          <> random_bits (5 * 2 ^ 80 + 81985529216486895) ->
          uuid_str (uuid4_int (Z.of_nat m * 2 ^ 80 + 81985529216486895))
          <> "00000000-0005-4000-8123-456789abcdef")
    /\ (forall key2 sid2 art2 n2,
          run (session_to_nwb (Demo.world false false [] "") key2 sid2) 8
          = (Ok art2, n2) ->
          random_bits (8 * 2 ^ 80 + 81985529216486895)
          <> random_bits (5 * 2 ^ 80 + 81985529216486895) ->
          pynwb.identifier art2 <> "00000000-0005-4000-8123-456789abcdef").
Proof.
  exact (session_id_and_identifier
           (Demo.world false false [] "") Demo.key5 (Some "s5") 5 8
           (Demo.artifact5 "s5" 5) eq_refl).
Defined.

(** ** The lab's time zone *)

(** Whatever the lab's [time_zone] says, an artifact that is returned has
    its start time in UTC. *)
Lemma start_time_always_utc (w : World) (key : dict) (sid : option string)
      (n n' : nat) (art : pynwb.NWBFile) :
  run (session_to_nwb w key sid) n = (Ok art, n') ->
  tzinfo (pynwb.session_start_time art) = Some timezone_utc.
Proof.
  intros Hrun.
  apply session_to_nwb_session_fields in Hrun.
  destruct Hrun as (k & kw & Hm & _ & _ & Hstart & _).
  apply session_metadata_Ok in Hm.
  destruct Hm as (sid' & info & stored & start & names
                  & _ & _ & _ & _ & Hconv & _ & _ & Hkw).
  subst kw. simpl in Hstart. inversion Hstart; subst start.
  unfold value_astimezone in Hconv.
  destruct stored as [| | d |]; try discriminate Hconv.
  exact (proj2 (astimezone_same_instant _ _ _ _ Hconv)).
Qed.

(** C2. With both providers active and the single lab record's [time_zone]
    being "UTC-5", the call returns an artifact whose [session_start_time]
    is still the UTC value, with offset 0: [astimezone] computes the
    re-expression at -05:00 (2020-05-11T21:13:07-05:00 here), but the
    function does not keep what it returns.  The instant is the stored
    one. *)
Theorem utc_minus_5_is_not_applied :
  run (session_to_nwb (Demo.world true true ["alpha"] "UTC-5") Demo.key5 None) 0
  = (Ok (Demo.artifact5_lab 0), 3%nat)
  /\ pynwb.session_start_time (Demo.artifact5_lab 0) = Demo.start5
  /\ option_map tz_offset (tzinfo Demo.start5) = Some 0
  /\ astimezone (local_utcoffset (Demo.world true true ["alpha"] "UTC-5"))
       Demo.start5 minus_five_hours
     = Ok {| year := 2020; month := 5; day := 11; hour := 21; minute := 13;
             second := 7; microsecond := 0; tzinfo := Some minus_five_hours |}
  /\ isoformat Demo.start5 = "2020-05-12T02:13:07+00:00"
  /\ instant (local_utcoffset (Demo.world true true ["alpha"] "UTC-5")) Demo.start5
     = instant (local_utcoffset (Demo.world true true ["alpha"] "UTC-5")) Demo.stamp5.
Proof. vm_compute. repeat split; reflexivity. Qed.

(** As the module is shipped, the same call does not get that far. *)
Lemma utc_minus_5_as_shipped :
  run (session_to_nwb (shipped (Demo.world true true ["alpha"] "UTC-5")) Demo.key5 None) 0
  = (Raise (NameError "name 'subject' is not defined"), 1%nat).
Proof. reflexivity. Qed.

(** ** The session note *)

Lemma dict_get_app_none (a : string) (r extra : dict) :
  dict_get a r = None -> dict_get a (r ++ extra)%list = dict_get a extra.
Proof.
  induction r as [| [a' v'] r IH]; simpl; intros H; [reflexivity |].
  destruct (String.eqb a a'); [discriminate H | apply IH; exact H].
Qed.

Lemma dict_get_nulls (a : string) (names : list string) :
  dj.in_names a names = true ->
  dict_get a (map (fun x => (x, VNone)) names) = Some VNone.
Proof.
  unfold dj.in_names. induction names as [| x names IH]; simpl; intros H.
  - discriminate H.
  - destruct (String.eqb a x); [reflexivity | apply IH; exact H].
Qed.

Lemma in_names_filter (a : string) (f : string -> bool) (names : list string) :
  dj.in_names a names = true -> f a = true -> dj.in_names a (filter f names) = true.
Proof.
  unfold dj.in_names. intros Hin Hf.
  apply existsb_exists in Hin. destruct Hin as (x & Hx & Heq).
  apply String.eqb_eq in Heq. subst x.
  apply existsb_exists. exists a. split.
  - apply filter_In. split; assumption.
  - apply String.eqb_refl.
Qed.

(** The record fetched for a session that has no partner in the note
    table: the session's record followed by NULL in each attribute that
    only the note table has. *)
Lemma session_info_without_note (w : World) (key : dict) (r info : dict) :
  dj.rows (dj.restrict (Session w) key) = [r] ->
  dj.key_not_null (Session w) r = true ->
  filter (dj.agree (dj.common (Session w) (SessionNote w)) r)
         (dj.rows (SessionNote w)) = [] ->
  dj.fetch1 (dj.join_left
               (dj.restrict (Session w) (dj.project (dj.primary_key (Session w)) r))
               (SessionNote w)) = Ok info ->
  info = (r ++ map (fun a => (a, VNone))
                   (filter (fun a => negb (dj.in_names a (dj.heading (Session w))))
                           (dj.heading (SessionNote w))))%list.
Proof.
  intros Hr Hnn Hnone Hinfo.
  assert (Hin : In r (dj.rows (dj.restrict (Session w)
                                 (dj.project (dj.primary_key (Session w)) r)))).
  { simpl. apply filter_In. split.
    - assert (H : In r (dj.rows (dj.restrict (Session w) key)))
        by (rewrite Hr; left; reflexivity).
      simpl in H. apply filter_In in H. exact (proj1 H).
    - apply row_matches_own_key. exact Hnn. }
  unfold dj.fetch1 in Hinfo.
  destruct (dj.rows (dj.join_left _ _)) as [| i [| i' rest]] eqn:Hrows;
    try discriminate Hinfo.
  inversion Hinfo; subst i; clear Hinfo.
  simpl in Hrows.
  eapply flat_map_singleton in Hrows; [| | exact Hin].
  - destruct Hrows as [_ Hf].
    change (dj.common (dj.restrict (Session w)
                         (dj.project (dj.primary_key (Session w)) r))
                      (SessionNote w))
      with (dj.common (Session w) (SessionNote w)) in Hf.
    rewrite Hnone in Hf. inversion Hf. reflexivity.
  - intros a. cbv beta.
    destruct (filter (dj.agree _ a) (dj.rows (SessionNote w))); simpl; discriminate.
Qed.

(** In every store: a session that has no note, the note being an
    attribute of the note table only, gets no artifact. *)
Lemma absent_note_never_returns (w : World) (key : dict) (sid : option string)
      (n : nat) (r : dict) :
  dj.rows (dj.restrict (Session w) key) = [r] ->
  dj.key_not_null (Session w) r = true ->
  filter (dj.agree (dj.common (Session w) (SessionNote w)) r)
         (dj.rows (SessionNote w)) = [] ->
  dj.in_names "session_note" (dj.heading (SessionNote w)) = true ->
  dj.in_names "session_note" (dj.heading (Session w)) = false ->
  dict_get "session_note" r = None ->
  forall art n', run (session_to_nwb w key sid) n <> (Ok art, n').
Proof.
  intros Hr Hnn Hnone Hnote Hsess Hget art n' Hrun.
  apply session_to_nwb_session_fields in Hrun.
  destruct Hrun as (k & kw & Hm & Hdesc & _).
  apply session_metadata_Ok in Hm.
  destruct Hm as (sid' & info & stored & start & names
                  & Hk & _ & Hinfo & _ & _ & _ & _ & Hkw).
  apply fetch1_KEY_Ok in Hk. destruct Hk as (r' & Hr' & Hk).
  rewrite Hr in Hr'. inversion Hr'; subst r'; clear Hr'. simpl in Hk. subst k.
  rewrite (session_info_without_note w key r info Hr Hnn Hnone Hinfo) in Hkw.
  subst kw. simpl in Hdesc.
  unfold dict_get_default in Hdesc.
  rewrite (dict_get_app_none _ _ _ Hget) in Hdesc.
  rewrite dict_get_nulls in Hdesc.
  - discriminate Hdesc.
  - apply in_names_filter; [exact Hnote |].
    rewrite Hsess. reflexivity.
Qed.

(** C7. For a session without a note, the left join with the note table
    still fetches a [session_note] entry, holding [None]; [dict.get] finds
    the key and so does not fall back on the empty string, and [NWBFile]
    refuses [None] as [session_description]: the call raises. *)
Theorem absent_note_is_fetched_as_None :
  dj.fetch1 (dj.join_left (dj.restrict Demo.session_table Demo.key6') Demo.note_table)
  = Ok [("subject", VStr "subject6"); ("session_datetime", VDatetime Demo.stamp6);
        ("session_note", VNone)]
  /\ dict_get_default "session_note" (VStr "")
       [("subject", VStr "subject6"); ("session_datetime", VDatetime Demo.stamp6);
        ("session_note", VNone)] = VNone
  /\ run (session_to_nwb (Demo.world false false [] "") Demo.key6' (Some "s6")) 0
     = (Raise (TypeError
          "NWBFile.__init__: None is not allowed for 'session_description' (expected 'str', not None)"),
        3%nat).
Proof. vm_compute. repeat split; reflexivity. Qed.

(** * Further properties of [session_to_nwb] *)

Lemma NWBFile_init_lab_fields (kw : kwargs) (art : pynwb.NWBFile) :
  NWBFile_init kw = Ok art ->
  pynwb.institution art = str_or_None (kw_institution kw)
  /\ pynwb.lab art = str_or_None (kw_lab kw).
Proof.
  unfold NWBFile_init. intros H.
  apply bind_Ok in H. destruct H as (description & _ & H).
  apply bind_Ok in H. destruct H as (ident & _ & H).
  apply bind_Ok in H. destruct H as (start & _ & H).
  apply bind_Ok in H. destruct H as (inst & Hi & H).
  apply bind_Ok in H. destruct H as (lab & Hl & H).
  inversion H; subst art; simpl; clear H.
  unfold optional_str in Hi, Hl.
  destruct (kw_institution kw) as [[] |]; try discriminate Hi;
    destruct (kw_lab kw) as [[] |]; try discriminate Hl;
    inversion Hi; inversion Hl; split; reflexivity.
Qed.

Lemma session_metadata_no_lab_fields (w : World) (key : dict) (n n' : nat)
      (k : dict) (kw : kwargs) :
  session_metadata w key n = (Ok (k, kw), n') ->
  kw_institution kw = None /\ kw_lab kw = None /\ kw_subject kw = None.
Proof.
  intros H. apply session_metadata_Ok in H.
  destruct H as (? & ? & ? & ? & ? & _ & _ & _ & _ & _ & _ & _ & ->).
  repeat split.
Qed.

Lemma session_metadata_key (w : World) (key : dict) (n n' : nat)
      (k : dict) (kw : kwargs) :
  session_metadata w key n = (Ok (k, kw), n') ->
  dj.fetch1_KEY (dj.restrict (Session w) key) = Ok k.
Proof.
  intros H. apply session_metadata_Ok in H.
  destruct H as (? & ? & ? & ? & ? & Hk & _). exact Hk.
Qed.

(** ** The provider branch as shipped *)

(** X13. With the subject provider available and activated, the module as
    shipped (the name [subject] not bound) never returns an artifact: once
    the session's metadata is gathered, line 84 raises [NameError]. *)
Theorem provider_branch_raises_NameError
        (w : World) (key : dict) (sid : option string) (n : nat) :
  HAVE_ELEMENT_ANIMAL w && subject_schema_is_activated w = true ->
  subject_bound (module_globals w) = false ->
  (forall art n', run (session_to_nwb w key sid) n <> (Ok art, n'))
  /\ (forall k kw n',
        session_metadata w key n = (Ok (k, kw), n') ->
        run (session_to_nwb w key sid) n
        = (Raise (NameError "name 'subject' is not defined"), n')).
Proof.
  intros Hon Hunbound. split.
  - intros art n' H. apply session_to_nwb_Ok in H.
    destruct H as (k & kw & _ & _ & [(_ & Hb & _) | (Hoff & _)]).
    + rewrite Hunbound in Hb. discriminate Hb.
    + rewrite Hon in Hoff. discriminate Hoff.
  - intros k kw n' Hm.
    exact (run_provider_branch_unbound w key sid n n' k kw Hon Hm Hunbound).
Qed.

Lemma provider_branch_raises_NameError_witness :
  run (session_to_nwb (shipped (Demo.world true true ["alpha"] "EST")) Demo.key5
         (Some "s5")) 4
  = (Raise (NameError "name 'subject' is not defined"), 5%nat).
Proof.
  eapply (proj2 (provider_branch_raises_NameError
                   (shipped (Demo.world true true ["alpha"] "EST")) Demo.key5
                   (Some "s5") 4 eq_refl eq_refl)).
  vm_compute. reflexivity.
Defined.

(** ** The lab provider without the subject provider *)

(** X3. Without an active subject provider the lab provider is not
    consulted: the outcome is the same whatever the lab provider's
    availability, activation and table and whatever the binding of the
    names that only the lab part uses, and a returned artifact has neither
    institution nor lab. *)
Theorem lab_needs_subject_provider
        (w : World) (key : dict) (sid : option string) (n : nat)
        (have activated : bool) (labs : dj.Table)
        (lab_name timedelta_name timezone_name DataJointError_name : bool) :
  HAVE_ELEMENT_ANIMAL w && subject_schema_is_activated w = false ->
  run (session_to_nwb
         (with_lab_provider w have activated labs
            lab_name timedelta_name timezone_name DataJointError_name)
         key sid) n
  = run (session_to_nwb w key sid) n
  /\ forall art n',
       run (session_to_nwb w key sid) n = (Ok art, n') ->
       pynwb.institution art = None /\ pynwb.lab art = None.
Proof.
  intros Hoff. split.
  - unfold run, session_to_nwb.
    change (session_metadata
              (with_lab_provider w have activated labs
                 lab_name timedelta_name timezone_name DataJointError_name) key)
      with (session_metadata w key).
    apply mbind_ext. intros resolved n1. cbv zeta.
    change (HAVE_ELEMENT_ANIMAL
              (with_lab_provider w have activated labs
                 lab_name timedelta_name timezone_name DataJointError_name))
      with (HAVE_ELEMENT_ANIMAL w).
    change (subject_schema_is_activated
              (with_lab_provider w have activated labs
                 lab_name timedelta_name timezone_name DataJointError_name))
      with (subject_schema_is_activated w).
    rewrite Hoff. destruct sid; reflexivity.
  - intros art n' Hrun.
    apply session_to_nwb_Ok in Hrun.
    destruct Hrun as (k & kw & Hm & _ & [(Hon & _) | (_ & s & _ & Hinit)]);
      [rewrite Hoff in Hon; discriminate Hon |].
    apply NWBFile_init_lab_fields in Hinit. simpl in Hinit.
    destruct (session_metadata_no_lab_fields _ _ _ _ _ _ Hm) as (Hi & Hl & _).
    rewrite Hi, Hl in Hinit. exact Hinit.
Qed.

Lemma lab_needs_subject_provider_witness :
  run (session_to_nwb
         (with_lab_provider (Demo.world false true ["alpha"; "beta"] "UTCX")
            false false (Demo.lab_table "") false false false false)
         Demo.key5 (Some "s5")) 0
  = run (session_to_nwb (Demo.world false true ["alpha"; "beta"] "UTCX")
           Demo.key5 (Some "s5")) 0
  /\ run (session_to_nwb (Demo.world false true ["alpha"; "beta"] "UTCX")
            Demo.key5 (Some "s5")) 0
     = (Ok (Demo.artifact5 "s5" 0), 3%nat).
Proof.
  split.
  - apply (proj1 (lab_needs_subject_provider
                    (Demo.world false true ["alpha"; "beta"] "UTCX") Demo.key5
                    (Some "s5") 0 false false (Demo.lab_table "")
                    false false false false eq_refl)).
  - vm_compute. reflexivity.
Defined.

(** ** The session key *)

Lemma all_str_not_text (i : nat) (k : dict) :
  existsb not_text (dict_values k) = true ->
  exists msg,
    all_str i (dict_values
      (map (fun kv : string * Value =>
              (fst kv, match snd kv with
                       | VDatetime d => VStr (isoformat d)
                       | v => v
                       end)) k)) = Raise (TypeError msg).
Proof.
  revert i. induction k as [| [a v] k IH]; simpl; intros i H.
  - discriminate H.
  - destruct v as [s | z | d |]; simpl in H |- *.
    + destruct (IH (S i) H) as (msg & ->). exists msg. reflexivity.
    + eexists. reflexivity.
    + destruct (IH (S i) H) as (msg & ->). exists msg. reflexivity.
    + eexists. reflexivity.
Qed.

(** X7. When the resolved key has a component that is neither a [str] nor
    a timestamp (an integer, say), [str.join] refuses it: the call raises
    [TypeError] before [uuid4] is called, so without a random draw. *)
Theorem key_component_that_is_no_text_raises
        (w : World) (key : dict) (sid : option string) (n : nat) (k : dict) :
  dj.fetch1_KEY (dj.restrict (Session w) key) = Ok k ->
  existsb not_text (dict_values k) = true ->
  exists msg, run (session_to_nwb w key sid) n = (Raise (TypeError msg), n).
Proof.
  intros Hk Hbad.
  destruct (all_str_not_text 0 k Hbad) as (msg & Hmsg).
  exists msg. unfold run, session_to_nwb, session_metadata, mbind, lift.
  rewrite Hk. unfold py_join. rewrite Hmsg. reflexivity.
Qed.

Lemma key_component_that_is_no_text_raises_witness :
  exists msg,
    run (session_to_nwb
           (Demo2.world Demo2.numbered_sessions Demo2.affiliation_table
                        (Demo2.lab_table (VStr "UTC+1")))
           [("subject", VStr "subject5")] None) 4
    = (Raise (TypeError msg), 4%nat).
Proof.
  apply (key_component_that_is_no_text_raises
           (Demo2.world Demo2.numbered_sessions Demo2.affiliation_table
                        (Demo2.lab_table (VStr "UTC+1")))
           [("subject", VStr "subject5")] None 4
           [("subject", VStr "subject5"); ("session_id", VInt 1)]);
    reflexivity.
Defined.

(** X10. The caller's key matters only through the session records it
    selects: two keys that select the same records have the same outcome. *)
Theorem keys_selecting_the_same_records_agree
        (w : World) (key1 key2 : dict) (sid : option string) (n : nat) :
  dj.rows (dj.restrict (Session w) key1) = dj.rows (dj.restrict (Session w) key2) ->
  run (session_to_nwb w key1 sid) n = run (session_to_nwb w key2 sid) n.
Proof.
  intros Hrows.
  assert (Hk : dj.fetch1_KEY (dj.restrict (Session w) key1)
               = dj.fetch1_KEY (dj.restrict (Session w) key2)).
  { unfold dj.fetch1_KEY, dj.len. rewrite Hrows. reflexivity. }
  unfold run, session_to_nwb, session_metadata. unfold mbind at 1 3.
  unfold mbind at 1 4. unfold lift at 1 7. rewrite Hk. reflexivity.
Qed.

Lemma keys_selecting_the_same_records_agree_witness :
  run (session_to_nwb (Demo.world false false [] "") [("subject", VStr "subject5")]
         (Some "s5")) 0
  = run (session_to_nwb (Demo.world false false [] "") Demo.key5 (Some "s5")) 0.
Proof.
  apply (keys_selecting_the_same_records_agree
           (Demo.world false false [] "") [("subject", VStr "subject5")] Demo.key5
           (Some "s5") 0).
  reflexivity.
Defined.

(** ** The session note *)

Lemma dict_get_project (a : string) (names : list string) (r : dict) :
  dict_get a (dj.project names r)
  = if dj.in_names a names then dict_get a r else None.
Proof.
  unfold dj.project, dj.in_names.
  induction names as [| x names IH]; simpl; [reflexivity |].
  destruct (dict_get x r) as [v |] eqn:Hx; simpl.
  - destruct (String.eqb a x) eqn:Hax; simpl.
    + apply String.eqb_eq in Hax. subst x. symmetry. exact Hx.
    + exact IH.
  - rewrite IH. destruct (String.eqb a x) eqn:Hax; simpl; [| reflexivity].
    apply String.eqb_eq in Hax. subst x. rewrite Hx.
    destruct (existsb (String.eqb a) names); reflexivity.
Qed.

(** The record fetched for the only session record with the only note
    record that goes with it. *)
Lemma join_left_single (t u : dj.Table) (r r' : dict) :
  dj.rows t = [r] ->
  filter (dj.agree (dj.common t u) r) (dj.rows u) = [r'] ->
  dj.fetch1 (dj.join_left t u)
  = Ok (r ++ dj.project
              (filter (fun a => negb (dj.in_names a (dj.heading t))) (dj.heading u))
              r')%list.
Proof.
  intros Hr Hp. unfold dj.fetch1, dj.join_left. simpl.
  rewrite Hr. simpl. rewrite Hp. reflexivity.
Qed.

Lemma note_of_joined_record (t u : dj.Table) (r r' : dict) :
  dj.in_names "session_note" (dj.heading u) = true ->
  dj.in_names "session_note" (dj.heading t) = false ->
  dict_get "session_note" r = None ->
  dict_get "session_note"
    (r ++ dj.project
            (filter (fun a => negb (dj.in_names a (dj.heading t))) (dj.heading u))
            r')%list
  = dict_get "session_note" r'.
Proof.
  intros Hu Ht Hr.
  rewrite (dict_get_app_none _ _ _ Hr), dict_get_project.
  rewrite in_names_filter; [reflexivity | exact Hu |].
  rewrite Ht. reflexivity.
Qed.

(** X9. For a session record with exactly one note record, a returned
    artifact has the stored note as [session_description]. *)
Theorem stored_note_is_the_description
        (w : World) (key : dict) (sid : option string) (n n' : nat)
        (art : pynwb.NWBFile) (r r' : dict) (note : Value) :
  dj.rows (dj.restrict (Session w) key) = [r] ->
  dj.key_not_null (Session w) r = true ->
  filter (dj.agree (dj.common (Session w) (SessionNote w)) r)
         (dj.rows (SessionNote w)) = [r'] ->
  dj.in_names "session_note" (dj.heading (SessionNote w)) = true ->
  dj.in_names "session_note" (dj.heading (Session w)) = false ->
  dict_get "session_note" r = None ->
  dict_get "session_note" r' = Some note ->
  run (session_to_nwb w key sid) n = (Ok art, n') ->
  note = VStr (pynwb.session_description art).
Proof.
  intros Hr Hnn Hp Hu Ht Hnone Hnote Hrun.
  apply session_to_nwb_session_fields in Hrun.
  destruct Hrun as (k & kw & Hm & Hdesc & _).
  apply session_metadata_Ok in Hm.
  destruct Hm as (sid' & info & stored & start & names
                  & Hk & _ & Hinfo & _ & _ & _ & _ & Hkw).
  apply fetch1_KEY_Ok in Hk. destruct Hk as (r0 & Hr0 & Hk).
  rewrite Hr in Hr0. inversion Hr0; subst r0; clear Hr0. simpl in Hk. subst k.
  destruct (session_info_extends_record w key r info Hr Hnn Hinfo) as (extra & ->).
  assert (Hsingle : dj.rows (dj.restrict (Session w)
                               (dj.project (dj.primary_key (Session w)) r)) = [r]).
  { unfold dj.fetch1 in Hinfo.
    destruct (dj.rows (dj.join_left _ _)) as [| i [| i' rest]] eqn:Hrows;
      try discriminate Hinfo.
    simpl in Hrows.
    eapply flat_map_singleton in Hrows.
    - exact (proj1 Hrows).
    - intros a. cbv beta.
      destruct (filter (dj.agree _ a) (dj.rows (SessionNote w)));
        simpl; discriminate.
    - simpl. apply filter_In. split.
      + assert (H : In r (dj.rows (dj.restrict (Session w) key)))
          by (rewrite Hr; left; reflexivity).
        simpl in H. apply filter_In in H. exact (proj1 H).
      + apply row_matches_own_key. exact Hnn. }
  rewrite (join_left_single _ (SessionNote w) r r' Hsingle Hp) in Hinfo.
  inversion Hinfo as [Heq]. clear Hinfo.
  subst kw. simpl in Hdesc. unfold dict_get_default in Hdesc.
  rewrite <- Heq in Hdesc.
  change (dj.heading (dj.restrict (Session w)
                        (dj.project (dj.primary_key (Session w)) r)))
    with (dj.heading (Session w)) in Hdesc.
  rewrite (note_of_joined_record (Session w) (SessionNote w) r r' Hu Ht Hnone),
    Hnote in Hdesc.
  inversion Hdesc. reflexivity.
Qed.

Lemma stored_note_is_the_description_witness :
  VStr "first run" = VStr (pynwb.session_description (Demo.artifact5 "s5" 0)).
Proof.
  apply (stored_note_is_the_description
           (Demo.world false false [] "") Demo.key5 (Some "s5") 0 3
           (Demo.artifact5 "s5" 0) Demo.key5
           [("subject", VStr "subject5"); ("session_datetime", VDatetime Demo.stamp5);
            ("session_note", VStr "first run")]);
    vm_compute; reflexivity.
Defined.

(** ** The call without providers *)

Lemma all_str_of_rendered (i : nat) (k : dict) (parts : list string) :
  Forall2 rendered (dict_values k) parts ->
  all_str i (dict_values
    (map (fun kv : string * Value =>
            (fst kv, match snd kv with
                     | VDatetime d => VStr (isoformat d)
                     | v => v
                     end)) k)) = Ok parts.
Proof.
  revert i parts. induction k as [| [a v] k IH]; simpl; intros i parts H.
  - inversion H. reflexivity.
  - inversion H as [| v0 p vs ps Hv Hrest]; subst.
    destruct Hv as [-> | (d & -> & ->)]; simpl;
      rewrite (IH (S i) ps Hrest); reflexivity.
Qed.

(** X12. When the call returns without providers.  Suppose the key
    selects one session record, whose primary key selects it alone and has
    only strings and timestamps as values; the record has a timestamp
    [session_datetime] that [astimezone] can express in UTC, and exactly one
    note record with a [str] note; the experimenter table has the
    [experimenter] attribute.  Then a call with a [subject_id] returns, after
    three random draws (the identifier, the subject, the file), the artifact
    made of the joined key, the text of the first draw's UUID, the UTC start
    time, the note, the experimenters (or [None]), and a subject with that
    identifier only. *)
Theorem call_without_providers_returns
        (w : World) (key : dict) (s : string) (n : nat)
        (r r' : dict) (parts : list string) (note : string) (d start : datetime) :
  HAVE_ELEMENT_ANIMAL w && subject_schema_is_activated w = false ->
  dj.rows (dj.restrict (Session w) key) = [r] ->
  dj.rows (dj.restrict (Session w) (dj.project (dj.primary_key (Session w)) r)) = [r] ->
  Forall2 rendered (dict_values (dj.project (dj.primary_key (Session w)) r)) parts ->
  dict_get "session_datetime" r = Some (VDatetime d) ->
  astimezone (local_utcoffset w) d timezone_utc = Ok start ->
  filter (dj.agree (dj.common (Session w) (SessionNote w)) r)
         (dj.rows (SessionNote w)) = [r'] ->
  dj.in_names "session_note" (dj.heading (SessionNote w)) = true ->
  dj.in_names "session_note" (dj.heading (Session w)) = false ->
  dict_get "session_note" r = None ->
  dict_get "session_note" r' = Some (VStr note) ->
  dj.in_names "experimenter" (dj.heading (SessionExperimenter w)) = true ->
  run (session_to_nwb w key (Some s)) n
  = (Ok {| pynwb.session_description := note;
           pynwb.identifier := uuid_str (uuid4_int (os_urandom w n));
           pynwb.session_start_time := start;
           pynwb.session_id := Some (str_join "_" parts);
           pynwb.experimenter :=
             match dj.rows (dj.restrict (SessionExperimenter w)
                              (dj.project (dj.primary_key (Session w)) r)) with
             | [] => None
             | rows => Some (map (dict_get_default "experimenter" VNone) rows)
             end;
           pynwb.subject := Some (pynwb.Subject_of_id s);
           pynwb.institution := None;
           pynwb.lab := None |}, S (S (S n))).
Proof.
  intros Hoff Hr Hself Hparts Hstamp Hconv Hp Hu Ht Hnone Hnote Hexp.
  unfold run, session_to_nwb, session_metadata, Subject_new, NWBFile_new,
    container_object_id, mbind, lift, uuid4.
  unfold dj.fetch1_KEY. rewrite Hr.
  change (dj.primary_key (dj.restrict (Session w) key))
    with (dj.primary_key (Session w)).
  unfold py_join. rewrite (all_str_of_rendered 0 _ parts Hparts). cbn [bind].
  rewrite (join_left_single _ (SessionNote w) r r' Hself Hp). cbn [bind].
  unfold dict_getitem. rewrite (dict_get_app _ _ _ _ Hstamp). cbn [bind].
  unfold value_astimezone. rewrite Hconv. cbn [bind].
  unfold dj.fetch.
  change (dj.heading (dj.restrict (SessionExperimenter w)
                        (dj.project (dj.primary_key (Session w)) r)))
    with (dj.heading (SessionExperimenter w)).
  rewrite Hexp. cbn [bind fst snd]. rewrite Hoff.
  unfold dict_get_default at 1.
  change (dj.heading (dj.restrict (Session w)
                        (dj.project (dj.primary_key (Session w)) r)))
    with (dj.heading (Session w)).
  rewrite (note_of_joined_record (Session w) (SessionNote w) r r' Hu Ht Hnone), Hnote.
  destruct (dj.rows (dj.restrict (SessionExperimenter w)
                       (dj.project (dj.primary_key (Session w)) r)));
    reflexivity.
Qed.

Lemma call_without_providers_returns_witness :
  run (session_to_nwb (Demo.world false false [] "") Demo.key5 (Some "mouse-1")) 7
  = (Ok (Demo.artifact5 "mouse-1" 7), 10%nat).
Proof.
  apply (call_without_providers_returns
           (Demo.world false false [] "") Demo.key5 "mouse-1" 7 Demo.key5
           [("subject", VStr "subject5"); ("session_datetime", VDatetime Demo.stamp5);
            ("session_note", VStr "first run")]
           ["subject5"; "2020-05-12T04:13:07"] "first run" Demo.stamp5 Demo.start5);
    try reflexivity.
  apply Forall2_cons; [left; reflexivity |].
  apply Forall2_cons; [right; exists Demo.stamp5; split; reflexivity |].
  apply Forall2_nil.
Defined.
